(** * Slack notifier lambdas: pipeline events and CloudWatch alarms

    Shallow embedding of
      - [terraform/lambda/pipeline_slack_notifier.py] (module [Pipeline]) and
      - [terraform/lambda/slack_notifier.py]          (module [Alarm]).

    Both files define one function, [handler(event, context)].  Python values
    that reach the handlers come out of JSON (the Lambda event and the decoded
    SNS message), so a value is one of None, bool, int, float, str, list or
    dict.  A [str] is a sequence of Unicode code points; a [dict] keeps its
    insertion order, which [json.dumps] follows, so it is an association
    list.  Exceptions are threaded through an error monad; [print] and the
    HTTP request are recorded in an effect log. *)

From Stdlib Require Import ZArith NArith List String Ascii Bool Lia.
From Stdlib Require Import SpecFloat DecimalString.
Import ListNotations.
Open Scope list_scope.

Set Implicit Arguments.
Set Warnings "-register-all".

(** ** Strings *)

Definition codepoint := N.
Definition pystr := list codepoint.

(** An ASCII literal of the source. *)
Definition lit (s : string) : pystr := map N_of_ascii (list_ascii_of_string s).

Fixpoint str_eqb (a b : pystr) : bool :=
  match a, b with
  | [], [] => true
  | x :: a', y :: b' => N.eqb x y && str_eqb a' b'
  | _, _ => false
  end.

(** [x in [s1, s2, ...]] for strings. *)
Definition str_in (x : pystr) (l : list pystr) : bool := existsb (str_eqb x) l.

(** [sep.join(parts)] *)
Fixpoint join (sep : pystr) (parts : list pystr) : pystr :=
  match parts with
  | [] => []
  | [p] => p
  | p :: rest => p ++ sep ++ join sep rest
  end.

Definition is_ascii (c : codepoint) : Prop := (c < 128)%N.

Definition ascii_lower (c : codepoint) : codepoint :=
  if ((65 <=? c) && (c <=? 90))%N then (c + 32)%N else c.

Definition ascii_upper (c : codepoint) : codepoint :=
  if ((97 <=? c) && (c <=? 122))%N then (c - 32)%N else c.

(** The code points U+D800..U+DFFF, which UTF-8 does not encode. *)
Definition is_surrogate (c : codepoint) : bool := ((55296 <=? c) && (c <=? 57343))%N.
Definition has_surrogate (s : pystr) : bool := existsb is_surrogate s.

(** [str(n)] of an int. *)
Definition str_of_int (n : Z) : pystr := lit (NilZero.string_of_int (Z.to_int n)).

(** ** Values and exceptions *)

Inductive pyval : Type :=
| PNone
| PBool (b : bool)
| PInt (n : Z)
| PFloat (f : spec_float)
| PStr (s : pystr)
| PList (items : list pyval)
| PDict (entries : list (pystr * pyval)).

(** The exception classes the handlers can meet; all derive from
    [Exception], which is what their [except] clause catches.
    [UnicodeEncodeError] is what [print] raises on a line that standard
    output cannot encode, [RecursionError] what [json.dumps] raises on a
    value nested too deep.  [LibraryError] stands for what [json.loads] and
    [urllib3] raise ([JSONDecodeError], [MaxRetryError], ...).
    [KeyboardInterrupt] and [SystemExit] are raised by none of the
    operations used and are left out. *)
Inductive exn : Type :=
| KeyError (key : pyval)
| IndexError (seq : pyval)
| TypeError (operation : pystr) (operand : pyval)
| AttributeError (obj : pyval) (attr : pystr)
| UnicodeEncodeError (text : pystr)
| RecursionError
| LibraryError (cls : pystr) (detail : pystr).

Inductive result (A : Type) : Type :=
| Ok (a : A)
| Raise (e : exn).
Arguments Ok {A} a.
Arguments Raise {A} e.

Definition rbind {A B} (r : result A) (k : A -> result B) : result B :=
  match r with
  | Ok a => k a
  | Raise e => Raise e
  end.

Declare Scope result_scope.
Delimit Scope result_scope with result.
Notation "x <- c ;; k" := (rbind c (fun x => k))
  (at level 61, c at next level, right associativity) : result_scope.

(** ** The Python runtime the handlers call into

    Case mapping follows the Unicode tables, [repr] and [str(e)] are
    CPython's, [json.loads] is the standard parser: they are the interface of
    the handlers to their interpreter.  What is fixed here:
      - [str.lower] on ASCII text;
      - standard output writes every line without surrogates; which of
        the other lines it refuses is left to the runtime (all of them with
        the strict error handler);
      - [str(e)] has no surrogate: the messages of the exceptions met here
        are fixed texts, type names and [repr]s, which escape them;
      - [json.dumps] enters [dumps_limit] nested lists and dicts before the
        recursion limit of the interpreter stops it. *)
Class PyLib : Type := {
  str_lower : pystr -> pystr;
  str_upper : pystr -> pystr;
  py_repr : pyval -> pystr;
  bytes_repr : list N -> pystr;
  exc_str : exn -> pystr;
  json_loads : pystr -> result pyval;
  stdout_accepts : pystr -> bool;
  dumps_limit : nat;
  str_lower_ascii : forall s, Forall is_ascii s -> str_lower s = map ascii_lower s;
  stdout_accepts_clean : forall s, has_surrogate s = false -> stdout_accepts s = true;
  exc_str_clean : forall e, has_surrogate (exc_str e) = false
}.

(** ** Operations on values *)

(** [bool(v)] *)
Definition truthy (v : pyval) : bool :=
  match v with
  | PNone => false
  | PBool b => b
  | PInt n => negb (Z.eqb n 0)
  | PFloat (S754_zero _) => false
  | PFloat _ => true
  | PStr s => negb (str_eqb s [])
  | PList l => match l with [] => false | _ => true end
  | PDict d => match d with [] => false | _ => true end
  end.

(** Lookup in a dict with string keys. *)
Fixpoint dict_get {V} (key : pystr) (d : list (pystr * V)) : option V :=
  match d with
  | [] => None
  | (k, v) :: rest => if str_eqb key k then Some v else dict_get key rest
  end.

(** [d[key] = v]: replaces in place, or appends a new key at the end. *)
Fixpoint dict_set {V} (key : pystr) (v : V) (d : list (pystr * V)) : list (pystr * V) :=
  match d with
  | [] => [(key, v)]
  | (k, v0) :: rest =>
      if str_eqb key k then (k, v) :: rest else (k, v0) :: dict_set key v rest
  end.

(** [v[key]] with a string key. *)
Definition getitem_str (v : pyval) (key : pystr) : result pyval :=
  match v with
  | PDict d =>
      match dict_get key d with
      | Some x => Ok x
      | None => Raise (KeyError (PStr key))
      end
  | _ => Raise (TypeError (lit "subscript") v)
  end.

(** [v[0]] *)
Definition getitem_0 (v : pyval) : result pyval :=
  match v with
  | PList (x :: _) => Ok x
  | PStr (c :: _) => Ok (PStr [c])
  | PList [] | PStr [] => Raise (IndexError v)
  | PDict _ => Raise (KeyError (PInt 0))
  | _ => Raise (TypeError (lit "subscript") v)
  end.

(** [v.get(key, default)]; only a dict has [get]. *)
Definition py_get (v : pyval) (key : string) (default : pyval) : result pyval :=
  match v with
  | PDict d =>
      Ok (match dict_get (lit key) d with Some x => x | None => default end)
  | _ => Raise (AttributeError v (lit "get"))
  end.

Section Runtime.
Context `{PyLib}.

(** [v.lower()] and [v.upper()]; only a str has them. *)
Definition py_lower (v : pyval) : result pystr :=
  match v with
  | PStr s => Ok (str_lower s)
  | _ => Raise (AttributeError v (lit "lower"))
  end.

Definition py_upper (v : pyval) : result pystr :=
  match v with
  | PStr s => Ok (str_upper s)
  | _ => Raise (AttributeError v (lit "upper"))
  end.

(** [f"{v}"], that is [str(v)]. *)
Definition py_str (v : pyval) : pystr :=
  match v with
  | PStr s => s
  | _ => py_repr v
  end.

(** [json.loads(v)] *)
Definition py_json_loads (v : pyval) : result pyval :=
  match v with
  | PStr s => json_loads s
  | _ => Raise (TypeError (lit "json.loads") v)
  end.

(** *** [json.dumps] with its defaults ([ensure_ascii], [", "] and [": "]) *)

Definition hex_digit (d : N) : codepoint :=
  if (d <? 10)%N then (48 + d)%N else (87 + d)%N.

(** ["\\u{0:04x}".format(n)] for [n < 0x10000] *)
Definition u_escape (n : N) : pystr :=
  [92; 117; hex_digit (N.shiftr n 12 mod 16); hex_digit (N.shiftr n 8 mod 16);
   hex_digit (N.shiftr n 4 mod 16); hex_digit (n mod 16)]%N.

Definition json_escape_char (c : codepoint) : pystr :=
  if (c =? 34)%N then [92; 34]%N
  else if (c =? 92)%N then [92; 92]%N
  else if (c =? 10)%N then [92; 110]%N
  else if (c =? 13)%N then [92; 114]%N
  else if (c =? 9)%N then [92; 116]%N
  else if (c =? 8)%N then [92; 98]%N
  else if (c =? 12)%N then [92; 102]%N
  else if ((32 <=? c) && (c <=? 126))%N then [c]
  else if (c <? 65536)%N then u_escape c
  else
    let n := (c - 65536)%N in
    u_escape (N.lor 55296 (N.land (N.shiftr n 10) 1023))
      ++ u_escape (N.lor 56320 (N.land n 1023)).

Definition json_string (s : pystr) : pystr :=
  [34%N] ++ flat_map json_escape_char s ++ [34%N].

Definition json_float (f : spec_float) : pystr :=
  match f with
  | S754_nan => lit "NaN"
  | S754_infinity false => lit "Infinity"
  | S754_infinity true => lit "-Infinity"
  | _ => py_repr (PFloat f)
  end.

Definition json_member (dumps : pyval -> pystr) (kv : pystr * pyval) : pystr :=
  json_string (fst kv) ++ lit ": " ++ dumps (snd kv).

Fixpoint json_dumps (v : pyval) : pystr :=
  match v with
  | PNone => lit "null"
  | PBool true => lit "true"
  | PBool false => lit "false"
  | PInt n => str_of_int n
  | PFloat f => json_float f
  | PStr s => json_string s
  | PList l => lit "[" ++ join (lit ", ") (map json_dumps l) ++ lit "]"
  | PDict d => lit "{" ++ join (lit ", ") (map (json_member json_dumps) d) ++ lit "}"
  end.

(** How many lists and dicts are nested in a value. *)
Fixpoint depth (v : pyval) : nat :=
  match v with
  | PList l => S (list_max (map depth l))
  | PDict d => S (list_max (map (fun kv => depth (snd kv)) d))
  | _ => 0
  end.

(** [json.dumps(v)]: the text above, unless the value is nested deeper than
    the encoder can recurse. *)
Definition py_json_dumps (v : pyval) : result pystr :=
  if depth v <=? dumps_limit then Ok (json_dumps v) else Raise RecursionError.

End Runtime.

(** ** Effects: the log of what a handler did, and the world it runs in *)

(** What [http.request] returns: [response.status] and [response.data]. *)
Module Http.
Record response : Type := { status : Z; data : list N }.
End Http.
Definition http_response : Type := Http.response.

(** What a run leaves behind: a line written to standard output, and a
    call [http.request('POST', url, body=body, headers={'Content-Type':
    content_type})].  The log holds the calls the handler makes; what
    urllib3 sends on the wire while it serves one call (one request,
    several when it retries or follows a redirect, none when the connection
    fails) is the library's and is not recorded. *)
Inductive effect : Type :=
| Print (line : pystr)
| HttpPost (url : pystr) (body : pystr) (content_type : pystr).

(** The process environment, the clock ([datetime.utcnow()], read as
    [isoformat()] and as [int(timestamp())]) and the remote end of
    [urllib3.PoolManager().request('POST', url, body=..., headers=...)]. *)
Record world : Type := {
  environ : list (pystr * pystr);
  utcnow_isoformat : pystr;
  utcnow_timestamp : Z;
  http_request : pystr -> pystr -> result http_response
}.

(** The dict a handler returns. *)
Record response : Type := { statusCode : Z; body : pystr }.

(** Computations that may raise and that append to the effect log. *)
Definition M (A : Type) : Type := list effect -> result A * list effect.

Definition ret {A} (a : A) : M A := fun log => (Ok a, log).

Definition bind {A B} (m : M A) (k : A -> M B) : M B :=
  fun log =>
    match m log with
    | (Ok a, log') => k a log'
    | (Raise e, log') => (Raise e, log')
    end.

Definition lift {A} (r : result A) : M A := fun log => (r, log).

(** [print(line)]: writes the line, or raises when standard output cannot
    encode it; nothing is written then. *)
Definition print `{PyLib} (line : pystr) : M unit :=
  fun log =>
    if stdout_accepts line then (Ok tt, log ++ [Print line])
    else (Raise (UnicodeEncodeError line), log).

(** One call of [http.request]; the world gives what the call returns or
    raises once urllib3 is done with its retries and redirects. *)
Definition http_post (w : world) (url body : pystr) : M http_response :=
  fun log =>
    (http_request w url body, log ++ [HttpPost url body (lit "application/json")]).

(** [try: m  except Exception as e: h e] *)
Definition try_except {A} (m : M A) (h : exn -> M A) : M A :=
  fun log =>
    match m log with
    | (Ok a, log') => (Ok a, log')
    | (Raise e, log') => h e log'
    end.

Declare Scope monad_scope.
Delimit Scope monad_scope with monad.
Notation "x <- c ;; k" := (bind c (fun x => k))
  (at level 61, c at next level, right associativity) : monad_scope.
Notation "c ;; k" := (bind c (fun _ => k))
  (at level 61, right associativity) : monad_scope.

(** The calls of [http.request] in a log. *)
Definition posts (log : list effect) : list effect :=
  filter (fun e => match e with HttpPost _ _ _ => true | Print _ => false end) log.

(** [os.environ.get(name)] and [os.environ.get(name, default)] *)
Definition environ_get (w : world) (name : string) : option pystr :=
  dict_get (lit name) (environ w).

Definition environ_get_default (w : world) (name : string) (default : string) : pystr :=
  match environ_get w name with
  | Some v => v
  | None => lit default
  end.

(** [v[:n]]; a dict cannot be sliced either (the class of that exception
    depends on the interpreter version, its being raised does not). *)
Definition slice_to (n : nat) (v : pyval) : result pyval :=
  match v with
  | PStr s => Ok (PStr (firstn n s))
  | PList l => Ok (PList (firstn n l))
  | _ => Raise (TypeError (lit "slice") v)
  end.

(** [len(v)] *)
Definition py_len (v : pyval) : result nat :=
  match v with
  | PStr s => Ok (List.length s)
  | PList l => Ok (List.length l)
  | PDict d => Ok (List.length d)
  | _ => Raise (TypeError (lit "len") v)
  end.

(** [v + s] where [s] is a str. *)
Definition add_str (v : pyval) (s : pystr) : result pyval :=
  match v with
  | PStr a => Ok (PStr (a ++ s))
  | _ => Raise (TypeError (lit "+") v)
  end.

(** [v in [s1, s2, ...]]: only a str equals a str. *)
Definition py_in (v : pyval) (l : list pystr) : bool :=
  match v with
  | PStr s => str_in s l
  | _ => false
  end.

(** [table.get(key, default)] on a dict literal with str keys: the key is
    hashed, which a list or a dict refuses; a key that is no str equals none
    of the table's. *)
Definition table_get (table : list (pystr * pystr)) (key : pyval) (default : pystr)
    : result pystr :=
  match key with
  | PStr s => Ok (match dict_get s table with Some t => t | None => default end)
  | PList _ | PDict _ => Raise (TypeError (lit "hash") key)
  | _ => Ok default
  end.

(** [event['Records'][0]['Sns']['Message']] *)
Definition sns_message_text (event : pyval) : result pyval :=
  (records <- getitem_str event (lit "Records") ;;
   record <- getitem_0 records ;;
   sns <- getitem_str record (lit "Sns") ;;
   getitem_str sns (lit "Message"))%result.

(** One entry of the attachment's [fields]. *)
Definition field (title : string) (value : pyval) (short : bool) : pyval :=
  PDict [(lit "title", PStr (lit title)); (lit "value", value); (lit "short", PBool short)].

(** Emoji of the source. *)
Definition check_mark : pystr := [9989]%N.          (* U+2705 *)
Definition cross_mark : pystr := [10060]%N.         (* U+274C *)
Definition arrows : pystr := [128260]%N.            (* U+1F504 *)
Definition question_mark : pystr := [10067]%N.      (* U+2753 *)
Definition rotating_light : pystr := [128680]%N.    (* U+1F6A8 *)
Definition warning_sign : pystr := [9888; 65039]%N. (* U+26A0 U+FE0F *)
Definition right_arrow : pystr := [8594]%N.         (* U+2192 *)

Definition green : pystr := lit "#00FF00".
Definition red : pystr := lit "#FF0000".
Definition orange : pystr := lit "#FFA500".
Definition gray : pystr := lit "#808080".

(** * pipeline_slack_notifier.py *)
Module Pipeline.

(** Lines 28-35: the fields of the decoded SNS message. *)
Record details : Type := {
  event_type : pyval;
  status : pyval;
  branch : pyval;
  commit_sha : pyval;
  commit_message : pyval;
  author : pyval;
  workflow_url : pyval;
  deployment_version : pyval
}.

Definition extract (sns_message : pyval) : result details :=
  (event_type <- py_get sns_message "event_type" (PStr (lit "unknown")) ;;
   status <- py_get sns_message "status" (PStr (lit "unknown")) ;;
   branch <- py_get sns_message "branch" (PStr (lit "unknown")) ;;
   commit_sha <- py_get sns_message "commit_sha" (PStr (lit "unknown")) ;;
   commit_message <- py_get sns_message "commit_message" (PStr (lit "No commit message")) ;;
   author <- py_get sns_message "author" (PStr (lit "Unknown")) ;;
   workflow_url <- py_get sns_message "workflow_url" (PStr (lit "")) ;;
   deployment_version <- py_get sns_message "deployment_version" (PStr (lit "")) ;;
   Ok {| event_type := event_type; status := status; branch := branch;
         commit_sha := commit_sha; commit_message := commit_message;
         author := author; workflow_url := workflow_url;
         deployment_version := deployment_version |})%result.

(** Lines 38-49, on the result of [status.lower()]. *)
Definition color_emoji_of_lowered (lowered : pystr) : pystr * pystr :=
  if str_in lowered [lit "success"; lit "completed"] then (green, check_mark)
  else if str_in lowered [lit "failure"; lit "failed"; lit "error"] then (red, cross_mark)
  else if str_in lowered [lit "started"; lit "running"; lit "in_progress"] then (orange, arrows)
  else (gray, question_mark).

(** Lines 52-65. *)
Definition title_map (emoji : pystr) : list (pystr * pystr) :=
  [ (lit "deployment_started", emoji ++ lit " Deployment Started");
    (lit "deployment_completed", emoji ++ lit " Deployment Completed");
    (lit "deployment_failed", emoji ++ lit " Deployment Failed");
    (lit "build_started", emoji ++ lit " Build Started");
    (lit "build_completed", emoji ++ lit " Build Completed");
    (lit "build_failed", emoji ++ lit " Build Failed");
    (lit "security_scan_completed", emoji ++ lit " Security Scan Completed");
    (lit "security_scan_failed", emoji ++ lit " Security Scan Failed");
    (lit "health_check_passed", emoji ++ lit " Health Check Passed");
    (lit "health_check_failed", emoji ++ lit " Health Check Failed");
    (lit "rollback_started", emoji ++ lit " Rollback Started");
    (lit "rollback_completed", emoji ++ lit " Rollback Completed") ].

(** Line 129. *)
Definition failed_event_types : list pystr :=
  [lit "deployment_failed"; lit "build_failed"; lit "security_scan_failed"].

(** Lines 130-137. *)
Definition actions (workflow_url : pyval) : pyval :=
  PList [PDict [(lit "type", PStr (lit "button"));
                (lit "text", PStr (lit "View Workflow"));
                (lit "url", workflow_url);
                (lit "style", PStr (lit "primary"))]].

(** Lines 117-124: the only attachment, as first built. *)
Definition attachment (project_name color title : pystr) (workflow_url : pyval)
    (fields : list pyval) (ts : Z) : list (pystr * pyval) :=
  [ (lit "color", PStr color);
    (lit "title", PStr title);
    (lit "title_link", if truthy workflow_url then workflow_url else PNone);
    (lit "fields", PList fields);
    (lit "footer", PStr (project_name ++ lit " Deployment Pipeline"));
    (lit "ts", PInt ts) ].

(** Lines 129-137: [slack_message["attachments"][0]["actions"] = [...]]
    updates that attachment in place. *)
Definition with_actions (d : details) (att : list (pystr * pyval)) : list (pystr * pyval) :=
  if py_in (event_type d) failed_event_types
  then dict_set (lit "actions") (actions (workflow_url d)) att
  else att.

(** Lines 113-126. *)
Definition slack_message (project_name : pystr) (att : list (pystr * pyval)) : pyval :=
  PDict [ (lit "username", PStr (project_name ++ lit " CI/CD"));
          (lit "icon_emoji", PStr (lit ":rocket:"));
          (lit "attachments", PList [PDict att]) ].

Section Handler.
Context `{PyLib}.

(** Lines 38-49. [status.lower()] is evaluated in each test that is
    reached, with the same result. *)
Definition color_emoji (status : pyval) : result (pystr * pystr) :=
  (lowered <- py_lower status ;;
   Ok (color_emoji_of_lowered lowered))%result.

(** Line 66. The default is built first; the lookup hashes the key. *)
Definition title (emoji : pystr) (event_type : pyval) : result pystr :=
  let default := emoji ++ lit " Pipeline Event: " ++ py_str event_type in
  table_get (title_map emoji) event_type default.

(** Line 108. *)
Definition commit_message_value (commit_message : pyval) : result pyval :=
  (head <- slice_to 100 commit_message ;;
   n <- py_len commit_message ;;
   add_str head (if 100 <? n then lit "..." else lit ""))%result.

(** Lines 69-110. *)
Definition fields (environment : pystr) (d : details) : result (list pyval) :=
  (status_upper <- py_upper (status d) ;;
   sha <- slice_to 8 (commit_sha d) ;;
   let fields :=
     [ field "Environment" (PStr (str_upper environment)) true;
       field "Status" (PStr status_upper) true;
       field "Branch" (branch d) true;
       field "Commit" (PStr (py_str sha)) true;
       field "Author" (author d) true ] in
   let fields :=
     if truthy (deployment_version d)
     then fields ++ [field "Version" (deployment_version d) true]
     else fields in
   value <- commit_message_value (commit_message d) ;;
   Ok (fields ++ [field "Commit Message" value false]))%result.

(** Lines 28-137: from the decoded SNS message to the Slack message. *)
Definition build (project_name environment : pystr) (ts : Z) (sns_message : pyval)
    : result (details * pyval) :=
  (d <- extract sns_message ;;
   ce <- color_emoji (status d) ;;
   title <- title (snd ce) (event_type d) ;;
   fields <- fields environment d ;;
   let att := attachment project_name (fst ce) title (workflow_url d) fields ts in
   Ok (d, slack_message project_name (with_actions d att)))%result.

Definition handler (w : world) (event : pyval) : M response :=
  let webhook_url := environ_get w "SLACK_WEBHOOK_URL" in
  let project_name := environ_get_default w "PROJECT_NAME" "NovaCore Vectra" in
  let environment := environ_get_default w "ENVIRONMENT" "unknown" in
  match webhook_url with
  | None | Some [] =>
      (print (lit "ERROR: SLACK_WEBHOOK_URL environment variable not set") ;;
       ret {| statusCode := 400;
              body := json_dumps (PStr (lit "Slack webhook URL not configured")) |})%monad
  | Some webhook_url =>
      try_except
        (text <- lift (sns_message_text event) ;;
         sns_message <- lift (py_json_loads text) ;;
         built <- lift (build project_name environment (utcnow_timestamp w) sns_message) ;;
         payload <- lift (py_json_dumps (snd built)) ;;
         response <- http_post w webhook_url payload ;;
         if (Http.status response =? 200)%Z then
           print (lit "Successfully sent Slack notification for pipeline event: "
                    ++ py_str (event_type (fst built))) ;;
           ret {| statusCode := 200;
                  body := json_dumps (PStr (lit "Notification sent successfully")) |}
         else
           print (lit "Failed to send Slack notification. Status: "
                    ++ str_of_int (Http.status response)) ;;
           ret {| statusCode := Http.status response;
                  body := json_dumps (PStr (lit "Failed to send notification: "
                                              ++ bytes_repr (Http.data response))) |})%monad
        (fun e =>
           print (lit "Error processing pipeline event notification: " ++ exc_str e) ;;
           ret {| statusCode := 500;
                  body := json_dumps (PStr (lit "Error: " ++ exc_str e)) |})%monad
  end.

End Handler.
End Pipeline.

(** * slack_notifier.py *)
Module Alarm.

(** Lines 28-33: the fields of the decoded SNS message. *)
Record details : Type := {
  alarm_name : pyval;
  alarm_description : pyval;
  new_state : pyval;
  old_state : pyval;
  reason : pyval;
  timestamp : pyval
}.

Definition extract (now_iso : pystr) (sns_message : pyval) : result details :=
  (alarm_name <- py_get sns_message "AlarmName" (PStr (lit "Unknown Alarm")) ;;
   alarm_description <- py_get sns_message "AlarmDescription" (PStr (lit "No description")) ;;
   new_state <- py_get sns_message "NewStateValue" (PStr (lit "UNKNOWN")) ;;
   old_state <- py_get sns_message "OldStateValue" (PStr (lit "UNKNOWN")) ;;
   reason <- py_get sns_message "NewStateReason" (PStr (lit "No reason provided")) ;;
   timestamp <- py_get sns_message "StateChangeTime" (PStr now_iso) ;;
   Ok {| alarm_name := alarm_name; alarm_description := alarm_description;
         new_state := new_state; old_state := old_state; reason := reason;
         timestamp := timestamp |})%result.

(** Lines 36-40. *)
Definition color_map : list (pystr * pystr) :=
  [ (lit "ALARM", red); (lit "OK", green); (lit "INSUFFICIENT_DATA", orange) ].

(** Lines 44-48. *)
Definition emoji_map : list (pystr * pystr) :=
  [ (lit "ALARM", rotating_light); (lit "OK", check_mark);
    (lit "INSUFFICIENT_DATA", warning_sign) ].

Section Handler.
Context `{PyLib}.

(** Lines 59-85. *)
Definition fields (environment : pystr) (d : details) : list pyval :=
  [ field "Environment" (PStr (str_upper environment)) true;
    field "State Change"
      (PStr (py_str (old_state d) ++ lit " " ++ right_arrow ++ lit " "
               ++ py_str (new_state d))) true;
    field "Description" (alarm_description d) false;
    field "Reason" (reason d) false;
    field "Timestamp" (timestamp d) true ].

(** Lines 52-90. *)
Definition slack_message (project_name environment color emoji : pystr)
    (d : details) (ts : Z) : pyval :=
  PDict [ (lit "username", PStr (project_name ++ lit " Monitoring"));
          (lit "icon_emoji", PStr (lit ":warning:"));
          (lit "attachments",
           PList [PDict [ (lit "color", PStr color);
                          (lit "title", PStr (emoji ++ lit " CloudWatch Alarm: "
                                                ++ py_str (alarm_name d)));
                          (lit "fields", PList (fields environment d));
                          (lit "footer", PStr (project_name ++ lit " AWS Infrastructure"));
                          (lit "ts", PInt ts) ]]) ].

(** Lines 28-90: from the decoded SNS message to the Slack message. *)
Definition build (project_name environment now_iso : pystr) (ts : Z)
    (sns_message : pyval) : result (details * pyval) :=
  (d <- extract now_iso sns_message ;;
   color <- table_get color_map (new_state d) gray ;;
   emoji <- table_get emoji_map (new_state d) question_mark ;;
   Ok (d, slack_message project_name environment color emoji d ts))%result.

Definition handler (w : world) (event : pyval) : M response :=
  let webhook_url := environ_get w "SLACK_WEBHOOK_URL" in
  let project_name := environ_get_default w "PROJECT_NAME" "NovaCore Vectra" in
  let environment := environ_get_default w "ENVIRONMENT" "unknown" in
  match webhook_url with
  | None | Some [] =>
      (print (lit "ERROR: SLACK_WEBHOOK_URL environment variable not set") ;;
       ret {| statusCode := 400;
              body := json_dumps (PStr (lit "Slack webhook URL not configured")) |})%monad
  | Some webhook_url =>
      try_except
        (text <- lift (sns_message_text event) ;;
         sns_message <- lift (py_json_loads text) ;;
         built <- lift (build project_name environment (utcnow_isoformat w)
                          (utcnow_timestamp w) sns_message) ;;
         payload <- lift (py_json_dumps (snd built)) ;;
         response <- http_post w webhook_url payload ;;
         if (Http.status response =? 200)%Z then
           print (lit "Successfully sent Slack notification for alarm: "
                    ++ py_str (alarm_name (fst built))) ;;
           ret {| statusCode := 200;
                  body := json_dumps (PStr (lit "Notification sent successfully")) |}
         else
           print (lit "Failed to send Slack notification. Status: "
                    ++ str_of_int (Http.status response)) ;;
           ret {| statusCode := Http.status response;
                  body := json_dumps (PStr (lit "Failed to send notification: "
                                              ++ bytes_repr (Http.data response))) |})%monad
        (fun e =>
           print (lit "Error processing CloudWatch alarm notification: " ++ exc_str e) ;;
           ret {| statusCode := 500;
                  body := json_dumps (PStr (lit "Error: " ++ exc_str e)) |})%monad
  end.

End Handler.
End Alarm.

(** * Reading a built message *)

(** [slack_message["attachments"][0]] *)
Definition attachment0 (slack_message : pyval) : option (list (pystr * pyval)) :=
  match slack_message with
  | PDict d =>
      match dict_get (lit "attachments") d with
      | Some (PList (PDict att :: _)) => Some att
      | _ => None
      end
  | _ => None
  end.

(** The value of the first field with the given title. *)
Fixpoint field_value (title : pystr) (fields : list pyval) : option pyval :=
  match fields with
  | [] => None
  | PDict f :: rest =>
      match dict_get (lit "title") f with
      | Some (PStr t) =>
          if str_eqb t title then dict_get (lit "value") f else field_value title rest
      | _ => field_value title rest
      end
  | _ :: rest => field_value title rest
  end.

(** The value shown under a title in the attachment of a message. *)
Definition displayed (title : string) (slack_message : pyval) : option pyval :=
  match attachment0 slack_message with
  | Some att =>
      match dict_get (lit "fields") att with
      | Some (PList fields) => field_value (lit title) fields
      | _ => None
      end
  | None => None
  end.

(** [needle] occurs in [text]. *)
Definition occurs_in (needle text : pystr) : Prop :=
  exists before after, text = before ++ needle ++ after.

(** A member [key: value] as [json.dumps] writes it. *)
Definition json_pair `{PyLib} (key : string) (value : pyval) : pystr :=
  json_string (lit key) ++ lit ": " ++ json_dumps value.

(** The decoding step of both handlers, line 25. *)
Definition decode `{PyLib} (event : pyval) : result pyval :=
  (text <- sns_message_text event ;;
   py_json_loads text)%result.

(** The inputs the decoding step refuses: no records, a record without its
    structural fields, or a message that [json.loads] rejects. *)
Inductive undecodable `{PyLib} : pyval -> Prop :=
| no_records_key d :
    dict_get (lit "Records") d = None ->
    undecodable (PDict d)
| no_records d :
    dict_get (lit "Records") d = Some (PList []) ->
    undecodable (PDict d)
| no_sns_field d record others :
    dict_get (lit "Records") d = Some (PList (PDict record :: others)) ->
    dict_get (lit "Sns") record = None ->
    undecodable (PDict d)
| no_message_field d record others sns :
    dict_get (lit "Records") d = Some (PList (PDict record :: others)) ->
    dict_get (lit "Sns") record = Some (PDict sns) ->
    dict_get (lit "Message") sns = None ->
    undecodable (PDict d)
| malformed_message d record others sns text e :
    dict_get (lit "Records") d = Some (PList (PDict record :: others)) ->
    dict_get (lit "Sns") record = Some (PDict sns) ->
    dict_get (lit "Message") sns = Some (PStr text) ->
    json_loads text = Raise e ->
    undecodable (PDict d).

(** The responses of lines 18-21, 150-153 and 163-166 (pipeline), which the
    alarm handler shares. *)
Definition quoted (text : pystr) : pystr := [34%N] ++ text ++ [34%N].

Definition not_configured : response :=
  {| statusCode := 400; body := quoted (lit "Slack webhook URL not configured") |}.


(** Lines 163-166: what the [except] clause returns for [e]. *)
Definition failure `{PyLib} (e : exn) : response :=
  {| statusCode := 500; body := json_dumps (PStr (lit "Error: " ++ exc_str e)) |}.

Definition not_configured_line : effect :=
  Print (lit "ERROR: SLACK_WEBHOOK_URL environment variable not set").

(** * A small runtime to run the handlers on concrete inputs

    ASCII case mapping, a [repr] for the scalars, and a [json.loads] that
    knows the empty object and refuses every other text. *)
Module Sample.

Definition repr (v : pyval) : pystr :=
  match v with
  | PNone => lit "None"
  | PBool true => lit "True"
  | PBool false => lit "False"
  | PInt n => str_of_int n
  | _ => lit "<object>"
  end.

(** Surrogates written as question marks, where [repr] would escape them. *)
Definition clean (s : pystr) : pystr :=
  map (fun c => if is_surrogate c then 63%N else c) s.

Definition message (e : exn) : pystr :=
  match e with
  | KeyError k => lit "KeyError " ++ match k with PStr s => s | _ => repr k end
  | IndexError _ => lit "list index out of range"
  | TypeError op _ => lit "TypeError " ++ op
  | AttributeError _ attr => lit "no attribute " ++ attr
  | UnicodeEncodeError _ => lit "'utf-8' codec can't encode: surrogates not allowed"
  | RecursionError => lit "maximum recursion depth exceeded"
  | LibraryError cls detail => cls ++ lit ": " ++ detail
  end.

Definition describe (e : exn) : pystr := clean (message e).

Definition loads (text : pystr) : result pyval :=
  if str_eqb text (lit "{}") then Ok (PDict [])
  else Raise (LibraryError (lit "JSONDecodeError") (lit "Expecting value")).

(** The runtime with a given parser: strict standard output, and room for
    900 nested containers in [json.dumps]. *)
Definition lib_with (parse : pystr -> result pyval) : PyLib.
Proof.
  refine {| str_lower := map ascii_lower;
            str_upper := map ascii_upper;
            py_repr := repr;
            bytes_repr := fun b => lit "b'" ++ b ++ lit "'";
            exc_str := describe;
            json_loads := parse;
            stdout_accepts := fun s => negb (has_surrogate s);
            dumps_limit := 900;
            str_lower_ascii := fun s _ => eq_refl |}.
  - intros s Hclean. now rewrite Hclean.
  - intros e. unfold describe, clean. generalize (message e). intros text.
    induction text as [|c text IH]; [reflexivity|].
    simpl. rewrite IH, orb_false_r.
    destruct (is_surrogate c) eqn:Hc; [reflexivity | exact Hc].
Defined.

#[local] Instance lib : PyLib := lib_with loads.

Definition url : pystr := lit "https://hooks.slack.com/services/T0/B0/X".

(** A world with the given webhook URL whose webhook answers [reply]. *)
Definition world_with (webhook : option pystr) (reply : result http_response) : world :=
  {| environ :=
       match webhook with
       | Some u => [(lit "SLACK_WEBHOOK_URL", u); (lit "ENVIRONMENT", lit "prod")]
       | None => [(lit "ENVIRONMENT", lit "prod")]
       end;
     utcnow_isoformat := lit "2024-01-01T00:00:00";
     utcnow_timestamp := 1704067200;
     http_request := fun _ _ => reply |}.

(** An SNS event carrying [message]. *)
Definition sns_event (message : pyval) : pyval :=
  PDict [(lit "Records",
          PList [PDict [(lit "Sns", PDict [(lit "Message", message)])]])].


Definition ok_reply : http_response :=
  {| Http.status := 200; Http.data := lit "ok" |}.

(** A failed deployment reported without a workflow URL. *)
Definition failed_deployment : pyval :=
  PDict [(lit "event_type", PStr (lit "deployment_failed"));
         (lit "status", PStr (lit "FAILED"))].

(** An alarm going back to OK. *)
Definition recovered_alarm : pyval :=
  PDict [(lit "AlarmName", PStr (lit "cpu-high"));
         (lit "NewStateValue", PStr (lit "OK"));
         (lit "OldStateValue", PStr (lit "ALARM"))].

End Sample.

(** * Further readings of values, messages and logs *)

Definition is_str (v : pyval) : bool :=
  match v with PStr _ => true | _ => false end.

(** What [hash(v)] accepts. *)
Definition hashable (v : pyval) : bool :=
  match v with PList _ | PDict _ => false | _ => true end.

(** What [v[:n]] accepts. *)
Definition sliceable (v : pyval) : bool :=
  match v with PStr _ | PList _ => true | _ => false end.

(** [d.get(key, default)] on the entries of a dict. *)
Definition get_or (m : list (pystr * pyval)) (key : string) (default : pyval) : pyval :=
  match dict_get (lit key) m with
  | Some v => v
  | None => default
  end.

(** The [fields] list of the attachment of a message. *)
Definition fields_of (slack_message : pyval) : list pyval :=
  match attachment0 slack_message with
  | Some att =>
      match dict_get (lit "fields") att with
      | Some (PList fields) => fields
      | _ => []
      end
  | None => []
  end.

(** An entry of a field. *)
Definition field_entry (key : string) (f : pyval) : option pyval :=
  match f with
  | PDict entries => dict_get (lit key) entries
  | _ => None
  end.


(** The keys of [title_map], lines 53-64. *)
Definition known_event_types : list pystr := map fst (Pipeline.title_map []).

(** An SNS event with several records. *)
Definition sns_records (records : list pyval) : pyval :=
  PDict [(lit "Records", PList records)].

(** The sample runtime with a parser that also knows the JSON text of [v]. *)
Definition lib_for (v : pyval) : PyLib :=
  Sample.lib_with
    (fun text =>
       if str_eqb text (@json_dumps Sample.lib v) then Ok v else Sample.loads text).


(** A list nested [n] lists deep. *)
Fixpoint nested (n : nat) : pyval :=
  match n with
  | O => PList []
  | S k => PList [nested k]
  end.

(** * Proof steps for the handlers *)

(** Unfolds a handler into the case analysis of its steps. *)
Ltac open_handler :=
  unfold Pipeline.handler, Alarm.handler; cbv beta zeta;
  unfold try_except, bind, lift, http_post, print, ret.

(** Takes the next step of an opened handler, both ways. *)
Ltac step_handler :=
  match goal with
  | |- context [sns_message_text ?ev] =>
      let e := fresh "e" in destruct (sns_message_text ev) as [?text|e] eqn:?Htext
  | |- context [py_json_loads ?t] =>
      let e := fresh "e" in destruct (py_json_loads t) as [?sns_message|e] eqn:?Hloads
  | |- context [Pipeline.build ?p ?env ?ts ?m] =>
      let e := fresh "e" in
      destruct (Pipeline.build p env ts m) as [[?d ?message]|e] eqn:?Hbuild
  | |- context [Alarm.build ?p ?env ?iso ?ts ?m] =>
      let e := fresh "e" in
      destruct (Alarm.build p env iso ts m) as [[?d ?message]|e] eqn:?Hbuild
  | |- context [py_json_dumps ?m] =>
      let e := fresh "e" in destruct (py_json_dumps m) as [?payload|e] eqn:?Hdumps
  | |- context [http_request ?w ?u ?b] =>
      let e := fresh "e" in destruct (http_request w u b) as [?reply|e] eqn:?Hrequest
  | |- context [(Http.status ?r =? 200)%Z] =>
      destruct (Http.status r =? 200)%Z eqn:?Hstatus
  | |- context [stdout_accepts ?line] =>
      destruct (stdout_accepts line) eqn:?Haccepts
  end; cbv beta iota; cbn [fst snd].

(** Runs an opened handler to its ends; [settle] rewrites what is known of
    the lines printed on the way. *)
Ltac run_handler settle :=
  settle; cbv beta iota; repeat (step_handler; settle; cbv beta iota).

(** * Facts about strings, dicts and serialization *)

Lemma str_eqb_eq (a b : pystr) : str_eqb a b = true <-> a = b.
Proof.
  revert b; induction a as [|x a IH]; intros [|y b]; simpl; split;
    try congruence; try reflexivity.
  - intros E. apply andb_true_iff in E as [Ex Ea].
    apply N.eqb_eq in Ex. apply IH in Ea. congruence.
  - intros E. injection E as -> ->. rewrite N.eqb_refl. simpl. now apply IH.
Qed.

Lemma str_eqb_refl (a : pystr) : str_eqb a a = true.
Proof. now apply str_eqb_eq. Qed.

Lemma str_eqb_neq (a b : pystr) : str_eqb a b = false <-> a <> b.
Proof.
  split.
  - intros E Eq. apply str_eqb_eq in Eq. congruence.
  - intros N. destruct (str_eqb a b) eqn:E; [|reflexivity].
    apply str_eqb_eq in E. contradiction.
Qed.

Lemma str_in_In (x : pystr) (l : list pystr) : str_in x l = true <-> In x l.
Proof.
  unfold str_in. rewrite existsb_exists. split.
  - intros (y & Hy & E). apply str_eqb_eq in E. now subst.
  - intros Hx. exists x. split; [assumption | apply str_eqb_refl].
Qed.

Lemma str_in_not_In (x : pystr) (l : list pystr) : str_in x l = false <-> ~ In x l.
Proof.
  rewrite <- str_in_In. destruct (str_in x l); split; congruence.
Qed.

Lemma lit_clean (s : string) : has_surrogate (lit s) = false.
Proof.
  unfold lit. induction s as [|a s IH]; [reflexivity|].
  cbn [list_ascii_of_string map has_surrogate existsb].
  fold (has_surrogate (map N_of_ascii (list_ascii_of_string s))). rewrite IH.
  pose proof (N_ascii_bounded a) as Hb. unfold is_surrogate.
  assert ((55296 <=? N_of_ascii a)%N = false) as -> by (apply N.leb_gt; lia).
  reflexivity.
Qed.

Lemma has_surrogate_app (a b : pystr) :
  has_surrogate (a ++ b) = has_surrogate a || has_surrogate b.
Proof. apply existsb_app. Qed.

Section Printing.
Context `{PyLib}.

Lemma accepts_literal (s : string) : stdout_accepts (lit s) = true.
Proof. apply stdout_accepts_clean, lit_clean. Qed.

Lemma accepts_error_line (s : string) (e : exn) :
  stdout_accepts (lit s ++ exc_str e) = true.
Proof.
  apply stdout_accepts_clean. now rewrite has_surrogate_app, lit_clean, exc_str_clean.
Qed.

Lemma accepts_status_line (s : string) (n : Z) :
  stdout_accepts (lit s ++ str_of_int n) = true.
Proof.
  apply stdout_accepts_clean. unfold str_of_int.
  now rewrite has_surrogate_app, !lit_clean.
Qed.

End Printing.

(** What is known of the lines of the handlers: all but the success line
    are accepted by standard output. *)
Ltac settle_lines :=
  rewrite ?accepts_literal, ?accepts_error_line, ?accepts_status_line.

Lemma Ok_inj {A} (a b : A) : Ok a = Ok b -> a = b.
Proof. congruence. Qed.

Lemma rbind_Ok {A B} (r : result A) (k : A -> result B) (b : B) :
  rbind r k = Ok b -> exists a, r = Ok a /\ k a = Ok b.
Proof. destruct r as [a|e]; simpl; [eauto | discriminate]. Qed.

(** * The pipeline status classifier *)

Section StatusClassifier.
Context `{PyLib}.

Lemma lower_empty : str_lower [] = [].
Proof. now rewrite str_lower_ascii by constructor. Qed.

(** C2. The pipeline classifier looks only at the lowercased status:
    success and completed give green with the check mark; failure, failed
    and error give red with the cross; started, running and in_progress
    give orange with the arrows; every other string, the empty one
    included, gives gray with the question mark.  On a string it never
    raises, and two strings with the same lowercase form are classified
    alike. *)
Theorem status_classifier (status : pystr) :
  let lowered := str_lower status in
  (In lowered [lit "success"; lit "completed"] ->
     Pipeline.color_emoji (PStr status) = Ok (green, check_mark)) /\
  (In lowered [lit "failure"; lit "failed"; lit "error"] ->
     Pipeline.color_emoji (PStr status) = Ok (red, cross_mark)) /\
  (In lowered [lit "started"; lit "running"; lit "in_progress"] ->
     Pipeline.color_emoji (PStr status) = Ok (orange, arrows)) /\
  (~ In lowered [lit "success"; lit "completed"; lit "failure"; lit "failed";
                 lit "error"; lit "started"; lit "running"; lit "in_progress"] ->
     Pipeline.color_emoji (PStr status) = Ok (gray, question_mark)) /\
  Pipeline.color_emoji (PStr []) = Ok (gray, question_mark) /\
  (exists presentation, Pipeline.color_emoji (PStr status) = Ok presentation) /\
  (forall other, str_lower other = str_lower status ->
     Pipeline.color_emoji (PStr other) = Pipeline.color_emoji (PStr status)).
Proof.
  cbv zeta. unfold Pipeline.color_emoji, py_lower, rbind.
  repeat split.
  - intros Hin. apply str_in_In in Hin.
    unfold Pipeline.color_emoji_of_lowered. now rewrite Hin.
  - intros Hin. simpl in Hin.
    destruct Hin as [E|[E|[E|[]]]]; rewrite <- E; reflexivity.
  - intros Hin. simpl in Hin.
    destruct Hin as [E|[E|[E|[]]]]; rewrite <- E; reflexivity.
  - intros Hout. unfold Pipeline.color_emoji_of_lowered.
    assert (str_in (str_lower status) [lit "success"; lit "completed"] = false) as ->.
    { apply str_in_not_In. intros Hin. apply Hout. simpl in *. tauto. }
    assert (str_in (str_lower status) [lit "failure"; lit "failed"; lit "error"] = false) as ->.
    { apply str_in_not_In. intros Hin. apply Hout. simpl in *. tauto. }
    assert (str_in (str_lower status) [lit "started"; lit "running"; lit "in_progress"] = false) as ->.
    { apply str_in_not_In. intros Hin. apply Hout. simpl in *. tauto. }
    reflexivity.
  - rewrite lower_empty. reflexivity.
  - eexists. reflexivity.
  - intros other E. now rewrite E.
Qed.

End StatusClassifier.

(** [status_classifier] at the status "SUCCESS" under ASCII case mapping. *)
Lemma status_classifier_witness :
  @Pipeline.color_emoji Sample.lib (PStr (lit "SUCCESS")) = Ok (green, check_mark).
Proof.
  apply (proj1 (@status_classifier Sample.lib (lit "SUCCESS"))).
  left. reflexivity.
Defined.

(** * Occurrences in serialized text *)

Lemma occurs_refl (a : pystr) : occurs_in a a.
Proof. exists [], []. now rewrite app_nil_r. Qed.

Lemma occurs_trans (a b c : pystr) : occurs_in a b -> occurs_in b c -> occurs_in a c.
Proof.
  intros (p & q & ->) (p' & q' & ->).
  exists (p' ++ p), (q ++ q'). now rewrite <- !app_assoc.
Qed.

Lemma occurs_app_l (a b c : pystr) : occurs_in a b -> occurs_in a (b ++ c).
Proof.
  intros (p & q & ->). exists p, (q ++ c). now rewrite <- !app_assoc.
Qed.

Lemma occurs_app_r (a b c : pystr) : occurs_in a c -> occurs_in a (b ++ c).
Proof.
  intros (p & q & ->). exists (b ++ p), q. now rewrite <- !app_assoc.
Qed.

Lemma occurs_join (sep p : pystr) (parts : list pystr) :
  In p parts -> occurs_in p (join sep parts).
Proof.
  induction parts as [|x [|y rest] IH]; simpl.
  - intros [].
  - intros [->|[]]. apply occurs_refl.
  - intros [->|Hin].
    + apply occurs_app_l, occurs_refl.
    + apply occurs_app_r, occurs_app_r, IH, Hin.
Qed.

Section Serialization.
Context `{PyLib}.

Lemma dumps_list_item (v : pyval) (l : list pyval) :
  In v l -> occurs_in (json_dumps v) (json_dumps (PList l)).
Proof.
  intros Hin.
  change (json_dumps (PList l))
    with (lit "[" ++ join (lit ", ") (map json_dumps l) ++ lit "]").
  apply occurs_app_r, occurs_app_l, occurs_join, in_map, Hin.
Qed.

Lemma dumps_dict_member (key : string) (v : pyval) (d : list (pystr * pyval)) :
  In (lit key, v) d -> occurs_in (json_pair key v) (json_dumps (PDict d)).
Proof.
  intros Hin.
  change (json_dumps (PDict d))
    with (lit "{" ++ join (lit ", ") (map (json_member json_dumps) d) ++ lit "}").
  apply occurs_app_r, occurs_app_l, occurs_join.
  change (json_pair key v) with (json_member json_dumps (lit key, v)).
  apply in_map, Hin.
Qed.

Lemma dumps_dict_value (key : string) (v : pyval) (d : list (pystr * pyval)) :
  In (lit key, v) d -> occurs_in (json_dumps v) (json_dumps (PDict d)).
Proof.
  intros Hin. eapply occurs_trans; [|apply dumps_dict_member, Hin].
  unfold json_pair. apply occurs_app_r, occurs_app_r, occurs_refl.
Qed.

End Serialization.

(** * The pipeline message *)

Section PipelineMessage.
Context `{PyLib}.

Lemma extract_inv (sns_message : pyval) (d : Pipeline.details) :
  Pipeline.extract sns_message = Ok d ->
  exists m, sns_message = PDict m /\
    py_get sns_message "event_type" (PStr (lit "unknown")) = Ok (Pipeline.event_type d) /\
    py_get sns_message "commit_message" (PStr (lit "No commit message"))
      = Ok (Pipeline.commit_message d) /\
    py_get sns_message "workflow_url" (PStr (lit "")) = Ok (Pipeline.workflow_url d).
Proof.
  destruct sns_message; try discriminate.
  unfold Pipeline.extract. simpl. intros E. injection E as <-.
  eexists. repeat split.
Qed.

Lemma build_inv (project_name environment : pystr) (ts : Z) (sns_message : pyval)
    (d : Pipeline.details) (message : pyval) :
  Pipeline.build project_name environment ts sns_message = Ok (d, message) ->
  exists color emoji title fields,
    Pipeline.extract sns_message = Ok d /\
    Pipeline.color_emoji (Pipeline.status d) = Ok (color, emoji) /\
    Pipeline.title emoji (Pipeline.event_type d) = Ok title /\
    Pipeline.fields environment d = Ok fields /\
    message = Pipeline.slack_message project_name
                (Pipeline.with_actions d
                   (Pipeline.attachment project_name color title
                      (Pipeline.workflow_url d) fields ts)).
Proof.
  unfold Pipeline.build. intros E.
  apply rbind_Ok in E as (d' & Ed & E).
  apply rbind_Ok in E as ([color emoji] & Ec & E).
  apply rbind_Ok in E as (title & Et & E).
  apply rbind_Ok in E as (fields & Ef & E).
  injection E as <- <-.
  exists color, emoji, title, fields. repeat split; assumption.
Qed.

Lemma failed_event_iff (event_type : pyval) :
  py_in event_type Pipeline.failed_event_types = true <->
  (event_type = PStr (lit "deployment_failed") \/
   event_type = PStr (lit "build_failed") \/
   event_type = PStr (lit "security_scan_failed")).
Proof.
  destruct event_type; unfold py_in;
    try (split; [discriminate | intros [E|[E|E]]; discriminate]).
  rewrite str_in_In. unfold Pipeline.failed_event_types. simpl.
  split.
  - intros [E|[E|[E|[]]]]; subst; auto.
  - intros [E|[E|E]]; injection E as ->; auto.
Qed.

Lemma attachment0_slack_message (project_name : pystr) (att : list (pystr * pyval)) :
  attachment0 (Pipeline.slack_message project_name att) = Some att.
Proof. reflexivity. Qed.

Lemma actions_of_attachment (d : Pipeline.details) (project_name color title : pystr)
    (fields : list pyval) (ts : Z) :
  dict_get (lit "actions")
    (Pipeline.with_actions d
       (Pipeline.attachment project_name color title (Pipeline.workflow_url d) fields ts))
  = if py_in (Pipeline.event_type d) Pipeline.failed_event_types
    then Some (Pipeline.actions (Pipeline.workflow_url d))
    else None.
Proof.
  unfold Pipeline.with_actions.
  destruct (py_in (Pipeline.event_type d) Pipeline.failed_event_types); reflexivity.
Qed.

(** C3. In a built pipeline message the attachment has an [actions] entry
    if and only if the event type is deployment_failed, build_failed or
    security_scan_failed; the entry is then the one-button list whose
    button reads View Workflow, and otherwise the key is not there at
    all. *)
Theorem actions_iff_failed_event (project_name environment : pystr) (ts : Z)
    (sns_message : pyval) (d : Pipeline.details) (message : pyval) :
  Pipeline.build project_name environment ts sns_message = Ok (d, message) ->
  let failed :=
    Pipeline.event_type d = PStr (lit "deployment_failed") \/
    Pipeline.event_type d = PStr (lit "build_failed") \/
    Pipeline.event_type d = PStr (lit "security_scan_failed") in
  py_get sns_message "event_type" (PStr (lit "unknown")) = Ok (Pipeline.event_type d) /\
  exists att,
    attachment0 message = Some att /\
    (dict_get (lit "actions") att <> None <-> failed) /\
    (failed ->
       dict_get (lit "actions") att
       = Some (PList [PDict [(lit "type", PStr (lit "button"));
                             (lit "text", PStr (lit "View Workflow"));
                             (lit "url", Pipeline.workflow_url d);
                             (lit "style", PStr (lit "primary"))]])) /\
    (~ failed -> dict_get (lit "actions") att = None).
Proof.
  intros Hbuild failed.
  apply build_inv in Hbuild as (color & emoji & title & fields & Hd & _ & _ & _ & ->).
  apply extract_inv in Hd as (m & _ & Het & _).
  split; [exact Het|].
  eexists. split; [apply attachment0_slack_message|].
  rewrite actions_of_attachment.
  pose proof (failed_event_iff (Pipeline.event_type d)) as Hiff.
  fold failed in Hiff.
  destruct (py_in (Pipeline.event_type d) Pipeline.failed_event_types).
  - assert (failed) as Hf by now apply Hiff.
    repeat split; try congruence; try reflexivity; tauto.
  - assert (~ failed) as Hf by (intros Hf; apply Hiff in Hf; discriminate).
    repeat split; try congruence; tauto.
Qed.

End PipelineMessage.

(** [actions_iff_failed_event] on a failed deployment. *)
Lemma actions_iff_failed_event_witness :
  exists d message,
    @Pipeline.build Sample.lib (lit "P") (lit "prod") 17 Sample.failed_deployment
      = Ok (d, message) /\
    exists att,
      attachment0 message = Some att /\
      dict_get (lit "actions") att = Some (Pipeline.actions (PStr (lit ""))).
Proof.
  eexists. eexists. split.
  - vm_compute. reflexivity.
  - destruct (@actions_iff_failed_event Sample.lib (lit "P") (lit "prod") 17
                Sample.failed_deployment _ _ eq_refl)
      as (_ & att & Hatt & _ & Hfailed & _).
    exists att. split; [exact Hatt|].
    apply Hfailed. left. reflexivity.
Defined.

(** * Workflow link and commit message in the pipeline message *)

Section PipelineFields.
Context `{PyLib}.

Lemma with_actions_attachment (d : Pipeline.details) (project_name color title : pystr)
    (url : pyval) (fields : list pyval) (ts : Z) :
  Pipeline.with_actions d (Pipeline.attachment project_name color title url fields ts)
  = Pipeline.attachment project_name color title url fields ts
      ++ (if py_in (Pipeline.event_type d) Pipeline.failed_event_types
          then [(lit "actions", Pipeline.actions (Pipeline.workflow_url d))]
          else []).
Proof.
  unfold Pipeline.with_actions.
  destruct (py_in (Pipeline.event_type d) Pipeline.failed_event_types).
  - reflexivity.
  - now rewrite app_nil_r.
Qed.

(** Both a missing and an empty workflow URL are read as the empty str. *)
Lemma absent_workflow_url (m : list (pystr * pyval)) (d : Pipeline.details) :
  Pipeline.extract (PDict m) = Ok d ->
  dict_get (lit "workflow_url") m = None \/
  dict_get (lit "workflow_url") m = Some (PStr []) ->
  Pipeline.workflow_url d = PStr [].
Proof.
  intros Hd Habsent. apply extract_inv in Hd as (m' & Em & _ & _ & Hurl).
  simpl in Hurl. injection Hurl as <-.
  destruct Habsent as [-> | ->]; reflexivity.
Qed.

(** Without a workflow URL the attachment's [title_link] is None, written
    [null] in the payload. *)
Lemma title_link_null (project_name environment : pystr) (ts : Z)
    (sns_message : pyval) (d : Pipeline.details) (message : pyval) :
  Pipeline.build project_name environment ts sns_message = Ok (d, message) ->
  truthy (Pipeline.workflow_url d) = false ->
  exists att,
    attachment0 message = Some att /\
    dict_get (lit "title_link") att = Some PNone /\
    occurs_in (json_pair "title_link" PNone) (json_dumps message).
Proof.
  intros Hbuild Hurl.
  apply build_inv in Hbuild as (color & emoji & title & fields & _ & _ & _ & _ & ->).
  eexists. split; [apply attachment0_slack_message|].
  rewrite with_actions_attachment. unfold Pipeline.attachment. rewrite Hurl.
  split; [reflexivity|].
  unfold Pipeline.slack_message.
  eapply occurs_trans; [|apply (dumps_dict_value "attachments")].
  2: { right. right. left. reflexivity. }
  eapply occurs_trans; [|apply dumps_list_item; left; reflexivity].
  apply dumps_dict_member. right. right. left. reflexivity.
Qed.

(** The button of a failed event carries the workflow URL as it is. *)
Lemma button_url (project_name environment : pystr) (ts : Z)
    (sns_message : pyval) (d : Pipeline.details) (message : pyval) :
  Pipeline.build project_name environment ts sns_message = Ok (d, message) ->
  py_in (Pipeline.event_type d) Pipeline.failed_event_types = true ->
  occurs_in (json_pair "url" (Pipeline.workflow_url d)) (json_dumps message).
Proof.
  intros Hbuild Hfailed.
  apply build_inv in Hbuild as (color & emoji & title & fields & _ & _ & _ & _ & ->).
  rewrite with_actions_attachment, Hfailed.
  unfold Pipeline.slack_message.
  eapply occurs_trans; [|apply (dumps_dict_value "attachments")].
  2: { right. right. left. reflexivity. }
  eapply occurs_trans; [|apply dumps_list_item; left; reflexivity].
  eapply occurs_trans; [|apply (dumps_dict_value "actions")].
  2: { apply in_or_app. right. left. reflexivity. }
  unfold Pipeline.actions.
  eapply occurs_trans; [|apply dumps_list_item; left; reflexivity].
  apply dumps_dict_member. right. right. left. reflexivity.
Qed.

Lemma build_Ok (project_name environment : pystr) (ts : Z) (sns_message : pyval)
    (d : Pipeline.details) (color emoji title : pystr) (fields : list pyval) :
  Pipeline.extract sns_message = Ok d ->
  Pipeline.color_emoji (Pipeline.status d) = Ok (color, emoji) ->
  Pipeline.title emoji (Pipeline.event_type d) = Ok title ->
  Pipeline.fields environment d = Ok fields ->
  Pipeline.build project_name environment ts sns_message
  = Ok (d, Pipeline.slack_message project_name
             (Pipeline.with_actions d
                (Pipeline.attachment project_name color title
                   (Pipeline.workflow_url d) fields ts))).
Proof.
  intros Hd Hc Ht Hf. unfold Pipeline.build.
  rewrite Hd. simpl. rewrite Hc. simpl. rewrite Ht. simpl. rewrite Hf. reflexivity.
Qed.

(** C1, at a failed deployment reported without a workflow URL: whatever
    the project, environment and clock, the message is built, its
    [title_link] is None, and its View Workflow button carries the empty
    str as [url], which the payload shows as a pair of quotes. *)
Theorem failed_event_without_url_has_empty_button_url
    (project_name environment : pystr) (ts : Z) :
  exists d message att,
    Pipeline.build project_name environment ts Sample.failed_deployment
      = Ok (d, message) /\
    attachment0 message = Some att /\
    dict_get (lit "title_link") att = Some PNone /\
    dict_get (lit "actions") att
      = Some (PList [PDict [(lit "type", PStr (lit "button"));
                            (lit "text", PStr (lit "View Workflow"));
                            (lit "url", PStr []);
                            (lit "style", PStr (lit "primary"))]]) /\
    occurs_in (quoted (lit "url") ++ lit ": " ++ quoted []) (json_dumps message).
Proof.
  assert (exists d fields,
             Pipeline.build project_name environment ts Sample.failed_deployment
             = Ok (d, Pipeline.slack_message project_name
                        (Pipeline.with_actions d
                           (Pipeline.attachment project_name red
                              (cross_mark ++ lit " Deployment Failed")
                              (Pipeline.workflow_url d) fields ts)))
             /\ Pipeline.workflow_url d = PStr []
             /\ py_in (Pipeline.event_type d) Pipeline.failed_event_types = true)
    as (d & fields & Hbuild & Hurl & Hfailed).
  { eexists. eexists. split; [|split].
    - eapply build_Ok.
      + reflexivity.
      + unfold Pipeline.color_emoji, py_lower. cbn.
        rewrite str_lower_ascii by (vm_compute; repeat constructor).
        reflexivity.
      + reflexivity.
      + reflexivity.
    - reflexivity.
    - reflexivity. }
  exists d. eexists. eexists. split; [exact Hbuild|].
  split; [apply attachment0_slack_message|].
  pose proof (@button_url _ _ _ _ _ _ Hbuild Hfailed) as Hocc.
  rewrite Hurl in Hocc |- *.
  split; [|split].
  - rewrite with_actions_attachment, Hfailed. reflexivity.
  - rewrite with_actions_attachment, Hfailed, Hurl. reflexivity.
  - exact Hocc.
Qed.

End PipelineFields.

Section CommitMessage.
Context `{PyLib}.

(** Line 108 on a str: no exception, and the str is cut after 100 code
    points. *)
Lemma commit_message_value_str (s : pystr) :
  Pipeline.commit_message_value (PStr s)
  = Ok (PStr (firstn 100 s ++ (if 100 <? List.length s then lit "..." else lit ""))).
Proof. reflexivity. Qed.

Lemma fields_commit_message (environment : pystr) (d : Pipeline.details)
    (fields : list pyval) :
  Pipeline.fields environment d = Ok fields ->
  exists value,
    Pipeline.commit_message_value (Pipeline.commit_message d) = Ok value /\
    field_value (lit "Commit Message") fields = Some value.
Proof.
  unfold Pipeline.fields. intros E.
  apply rbind_Ok in E as (status_upper & _ & E).
  apply rbind_Ok in E as (sha & _ & E).
  apply rbind_Ok in E as (value & Hvalue & E).
  injection E as <-. exists value. split; [exact Hvalue|].
  destruct (truthy (Pipeline.deployment_version d)); reflexivity.
Qed.

Lemma displayed_fields (d : Pipeline.details) (project_name color title : pystr)
    (url : pyval) (fields : list pyval) (ts : Z) (name : string) :
  displayed name
    (Pipeline.slack_message project_name
       (Pipeline.with_actions d
          (Pipeline.attachment project_name color title url fields ts)))
  = field_value (lit name) fields.
Proof.
  rewrite with_actions_attachment.
  destruct (py_in (Pipeline.event_type d) Pipeline.failed_event_types); reflexivity.
Qed.

(** C8. In a built pipeline message the Commit Message field shows the
    commit message itself when it has at most 100 characters, and its
    first 100 characters followed by three dots when it has more; so a
    message of 150 characters is shown as 103 characters, its first 100
    and the dots. *)
Theorem commit_message_display (project_name environment : pystr) (ts : Z)
    (sns_message : pyval) (d : Pipeline.details) (message : pyval) (s : pystr) :
  Pipeline.build project_name environment ts sns_message = Ok (d, message) ->
  Pipeline.commit_message d = PStr s ->
  py_get sns_message "commit_message" (PStr (lit "No commit message")) = Ok (PStr s) /\
  (List.length s <= 100 ->
     displayed "Commit Message" message = Some (PStr s)) /\
  (100 < List.length s ->
     displayed "Commit Message" message = Some (PStr (firstn 100 s ++ lit "..."))) /\
  (List.length s = 150 ->
     exists shown,
       displayed "Commit Message" message = Some (PStr shown) /\
       List.length shown = 103 /\
       firstn 100 shown = firstn 100 s /\
       skipn 100 shown = lit "...").
Proof.
  intros Hbuild Hs.
  apply build_inv in Hbuild as (color & emoji & title & fields & Hd & _ & _ & Hf & ->).
  apply extract_inv in Hd as (m & _ & _ & Hcm & _). rewrite Hs in Hcm.
  apply fields_commit_message in Hf as (value & Hvalue & Hshown).
  rewrite Hs, commit_message_value_str in Hvalue. apply Ok_inj in Hvalue. subst value.
  rewrite displayed_fields, Hshown.
  split; [exact Hcm|].
  split; [|split].
  - intros Hshort.
    assert ((100 <? List.length s) = false) as -> by (apply Nat.ltb_ge; lia).
    now rewrite firstn_all2, app_nil_r by lia.
  - intros Hlong.
    assert ((100 <? List.length s) = true) as -> by (apply Nat.ltb_lt; lia).
    reflexivity.
  - intros H150.
    assert ((100 <? List.length s) = true) as -> by (apply Nat.ltb_lt; lia).
    assert (List.length (firstn 100 s) = 100) as Hlen
      by (rewrite length_firstn; lia).
    exists (firstn 100 s ++ lit "..."). split; [reflexivity|].
    split; [|split].
    + rewrite length_app, Hlen. reflexivity.
    + rewrite firstn_app, Hlen, Nat.sub_diag, firstn_firstn, Nat.min_id.
      change (firstn 0 (lit "...")) with (@nil codepoint).
      apply app_nil_r.
    + rewrite skipn_app, Hlen, Nat.sub_diag.
      rewrite skipn_all2 by lia. reflexivity.
Qed.

End CommitMessage.

(** [commit_message_display] on a commit message of 150 characters. *)
Lemma commit_message_display_witness :
  exists d message,
    @Pipeline.build Sample.lib (lit "P") (lit "prod") 17
      (PDict [(lit "commit_message", PStr (repeat 120%N 150))]) = Ok (d, message) /\
    displayed "Commit Message" message
      = Some (PStr (repeat 120%N 100 ++ lit "...")).
Proof.
  eexists. eexists. split.
  - vm_compute. reflexivity.
  - destruct (@commit_message_display Sample.lib (lit "P") (lit "prod") 17
                (PDict [(lit "commit_message", PStr (repeat 120%N 150))])
                _ _ (repeat 120%N 150) eq_refl eq_refl)
      as (_ & _ & Hlong & _).
    refine (eq_trans (Hlong _) _); [vm_compute; lia | reflexivity].
Defined.

(** * The alarm message *)

Section AlarmMessage.
Context `{PyLib}.

Lemma table_get_other (table : list (pystr * pystr)) (s default : pystr) :
  (forall k v, In (k, v) table -> s <> k) ->
  table_get table (PStr s) default = Ok default.
Proof.
  intros Hother. simpl. f_equal.
  induction table as [|[k v] rest IH]; [reflexivity|].
  simpl. assert (str_eqb s k = false) as ->.
  { apply str_eqb_neq, (Hother k v). now left. }
  apply IH. intros k' v' Hin. apply (Hother k' v'). now right.
Qed.

(** C9. The alarm message is classified by the new state as it is, with
    no case mapping.  For every SNS message whose NewStateValue is a str,
    the message is built and its attachment is red with the rotating light
    for ALARM, green with the check mark for OK, orange with the warning
    sign for INSUFFICIENT_DATA, and gray with the question mark for every
    other str (a lowercase "ok" too); the title is the emoji,
    " CloudWatch Alarm: " and the alarm name, and the State Change field is
    the old state, the arrow U+2192 and the new state.  So an alarm that
    goes from ALARM to OK yields a green attachment with the check mark in
    a title that holds the alarm name, and the field "ALARM -> OK". *)
Theorem alarm_classifier_and_recovery (project_name environment now_iso : pystr)
    (ts : Z) (m : list (pystr * pyval)) (state : pystr) :
  dict_get (lit "NewStateValue") m = Some (PStr state) ->
  exists d message att,
    Alarm.build project_name environment now_iso ts (PDict m) = Ok (d, message) /\
    attachment0 message = Some att /\
    (state = lit "ALARM" ->
       dict_get (lit "color") att = Some (PStr red) /\
       dict_get (lit "title") att
       = Some (PStr (rotating_light ++ lit " CloudWatch Alarm: "
                       ++ py_str (get_or m "AlarmName" (PStr (lit "Unknown Alarm")))))) /\
    (state = lit "OK" ->
       dict_get (lit "color") att = Some (PStr green) /\
       dict_get (lit "title") att
       = Some (PStr (check_mark ++ lit " CloudWatch Alarm: "
                       ++ py_str (get_or m "AlarmName" (PStr (lit "Unknown Alarm")))))) /\
    (state = lit "INSUFFICIENT_DATA" ->
       dict_get (lit "color") att = Some (PStr orange) /\
       dict_get (lit "title") att
       = Some (PStr (warning_sign ++ lit " CloudWatch Alarm: "
                       ++ py_str (get_or m "AlarmName" (PStr (lit "Unknown Alarm")))))) /\
    (state <> lit "ALARM" -> state <> lit "OK" -> state <> lit "INSUFFICIENT_DATA" ->
       dict_get (lit "color") att = Some (PStr gray) /\
       dict_get (lit "title") att
       = Some (PStr (question_mark ++ lit " CloudWatch Alarm: "
                       ++ py_str (get_or m "AlarmName" (PStr (lit "Unknown Alarm")))))) /\
    displayed "State Change" message
    = Some (PStr (py_str (get_or m "OldStateValue" (PStr (lit "UNKNOWN")))
                    ++ lit " " ++ right_arrow ++ lit " " ++ state)) /\
    (state = lit "OK" ->
     dict_get (lit "OldStateValue") m = Some (PStr (lit "ALARM")) ->
     forall name, dict_get (lit "AlarmName") m = Some (PStr name) ->
       dict_get (lit "color") att = Some (PStr green) /\
       dict_get (lit "title") att
       = Some (PStr (check_mark ++ lit " CloudWatch Alarm: " ++ name)) /\
       displayed "State Change" message
       = Some (PStr (lit "ALARM " ++ right_arrow ++ lit " OK"))).
Proof.
  intros Hnew.
  unfold Alarm.build, Alarm.extract, py_get. cbn [rbind].
  fold (get_or m "AlarmName" (PStr (lit "Unknown Alarm"))).
  fold (get_or m "OldStateValue" (PStr (lit "UNKNOWN"))).
  rewrite Hnew. cbn [Alarm.new_state].
  destruct (table_get Alarm.color_map (PStr state) gray) as [color|e] eqn:Hcolor;
    [|discriminate Hcolor].
  destruct (table_get Alarm.emoji_map (PStr state) question_mark) as [emoji|e] eqn:Hemoji;
    [|discriminate Hemoji].
  cbn [rbind]. eexists. eexists. eexists.
  split; [reflexivity|]. split; [reflexivity|].
  unfold displayed. cbn [attachment0 Alarm.slack_message].
  split; [|split; [|split; [|split; [|split]]]].
  - intros ->. apply Ok_inj in Hcolor. apply Ok_inj in Hemoji.
    subst color emoji. split; reflexivity.
  - intros ->. apply Ok_inj in Hcolor. apply Ok_inj in Hemoji.
    subst color emoji. split; reflexivity.
  - intros ->. apply Ok_inj in Hcolor. apply Ok_inj in Hemoji.
    subst color emoji. split; reflexivity.
  - intros Ha Ho Hi.
    rewrite table_get_other in Hcolor, Hemoji.
    + apply Ok_inj in Hcolor. apply Ok_inj in Hemoji.
      subst color emoji. split; reflexivity.
    + unfold Alarm.emoji_map. cbn [In].
      intros k v [E|[E|[E|[]]]]; apply pair_equal_spec in E as [<- _]; assumption.
    + unfold Alarm.color_map. cbn [In].
      intros k v [E|[E|[E|[]]]]; apply pair_equal_spec in E as [<- _]; assumption.
  - reflexivity.
  - intros -> Hold name Hname.
    apply Ok_inj in Hcolor. apply Ok_inj in Hemoji. subst color emoji.
    unfold get_or. rewrite Hold, Hname. repeat split; reflexivity.
Qed.

End AlarmMessage.

(** [alarm_classifier_and_recovery] on an alarm named cpu-high that goes
    from ALARM to OK. *)
Lemma alarm_classifier_and_recovery_witness :
  exists d message att,
    @Alarm.build Sample.lib (lit "P") (lit "prod") (lit "now") 17 Sample.recovered_alarm
      = Ok (d, message) /\
    attachment0 message = Some att /\
    dict_get (lit "color") att = Some (PStr green) /\
    dict_get (lit "title") att
      = Some (PStr (check_mark ++ lit " CloudWatch Alarm: cpu-high")) /\
    displayed "State Change" message
      = Some (PStr (lit "ALARM " ++ right_arrow ++ lit " OK")).
Proof.
  destruct (@alarm_classifier_and_recovery Sample.lib (lit "P") (lit "prod") (lit "now")
              17%Z
              [(lit "AlarmName", PStr (lit "cpu-high"));
               (lit "NewStateValue", PStr (lit "OK"));
               (lit "OldStateValue", PStr (lit "ALARM"))]
              (lit "OK") eq_refl)
    as (d & message & att & Hbuild & Hatt & _ & _ & _ & _ & _ & Hrecover).
  destruct (Hrecover eq_refl eq_refl (lit "cpu-high") eq_refl)
    as (Hcolor & Htitle & Hshown).
  exists d, message, att. repeat split; assumption.
Defined.

(** * The handlers *)

Section Handlers.
Context `{PyLib}.

Lemma pipeline_unconfigured (w : world) (event : pyval) :
  environ_get w "SLACK_WEBHOOK_URL" = None \/
  environ_get w "SLACK_WEBHOOK_URL" = Some [] ->
  Pipeline.handler w event [] = (Ok not_configured, [not_configured_line]).
Proof.
  intros [Hurl|Hurl]; open_handler; rewrite Hurl; settle_lines; reflexivity.
Qed.

Lemma alarm_unconfigured (w : world) (event : pyval) :
  environ_get w "SLACK_WEBHOOK_URL" = None \/
  environ_get w "SLACK_WEBHOOK_URL" = Some [] ->
  Alarm.handler w event [] = (Ok not_configured, [not_configured_line]).
Proof.
  intros [Hurl|Hurl]; open_handler; rewrite Hurl; settle_lines; reflexivity.
Qed.

Lemma decode_Raise (event : pyval) (e : exn) :
  decode event = Raise e ->
  sns_message_text event = Raise e \/
  exists text, sns_message_text event = Ok text /\ py_json_loads text = Raise e.
Proof.
  unfold decode. destruct (sns_message_text event) as [text|e']; simpl.
  - eauto.
  - intros E. left. congruence.
Qed.

Lemma decode_Ok (event sns_message : pyval) :
  decode event = Ok sns_message ->
  exists text, sns_message_text event = Ok text /\ py_json_loads text = Ok sns_message.
Proof.
  unfold decode. intros E. apply rbind_Ok in E. exact E.
Qed.

Lemma pipeline_decode_failure (w : world) (event : pyval) (c : codepoint)
    (url : pystr) (e : exn) :
  environ_get w "SLACK_WEBHOOK_URL" = Some (c :: url) ->
  decode event = Raise e ->
  Pipeline.handler w event []
  = (Ok (failure e),
     [Print (lit "Error processing pipeline event notification: " ++ exc_str e)]).
Proof.
  intros Hurl He. open_handler. rewrite Hurl.
  apply decode_Raise in He as [-> | (text & -> & He)]; cbv beta iota.
  - settle_lines. reflexivity.
  - rewrite He. cbv beta iota. settle_lines. reflexivity.
Qed.

Lemma alarm_decode_failure (w : world) (event : pyval) (c : codepoint)
    (url : pystr) (e : exn) :
  environ_get w "SLACK_WEBHOOK_URL" = Some (c :: url) ->
  decode event = Raise e ->
  Alarm.handler w event []
  = (Ok (failure e),
     [Print (lit "Error processing CloudWatch alarm notification: " ++ exc_str e)]).
Proof.
  intros Hurl He. open_handler. rewrite Hurl.
  apply decode_Raise in He as [-> | (text & -> & He)]; cbv beta iota.
  - settle_lines. reflexivity.
  - rewrite He. cbv beta iota. settle_lines. reflexivity.
Qed.

Lemma undecodable_Raise (event : pyval) :
  undecodable event -> exists e, decode event = Raise e.
Proof.
  unfold decode, sns_message_text.
  intros [d Hr | d Hr | d r o Hr Hs | d r o s Hr Hs Hm | d r o s t e Hr Hs Hm Hl];
    unfold getitem_str at 1; rewrite Hr; cbn [rbind getitem_0]; eauto;
    unfold getitem_str at 1; rewrite Hs; cbn [rbind]; eauto;
    unfold getitem_str at 1; rewrite Hm; cbn [rbind py_json_loads]; eauto.
Qed.

(** C6. With the webhook URL configured, an event without records, whose
    record lacks the Sns or Message field, or whose message is rejected by
    the JSON parser, makes the decoding step raise; the handler (the
    pipeline one and the alarm one alike) then returns status 500 with
    the body "Error: " followed by the description of that exception,
    JSON-encoded, and its log holds no HTTP request. *)
Theorem undecodable_event_gives_500 (w : world) (event : pyval) (url : pystr) :
  environ_get w "SLACK_WEBHOOK_URL" = Some url ->
  url <> [] ->
  undecodable event ->
  exists e,
    decode event = Raise e /\
    (exists log,
       Pipeline.handler w event []
       = (Ok {| statusCode := 500;
                body := json_dumps (PStr (lit "Error: " ++ exc_str e)) |}, log) /\
       posts log = []) /\
    (exists log,
       Alarm.handler w event []
       = (Ok {| statusCode := 500;
                body := json_dumps (PStr (lit "Error: " ++ exc_str e)) |}, log) /\
       posts log = []).
Proof.
  intros Hurl Hne Hbad.
  destruct url as [|c url]; [contradiction|].
  apply undecodable_Raise in Hbad as (e & He).
  exists e. split; [exact He|]. split.
  - eexists. split; [eapply pipeline_decode_failure; eassumption | reflexivity].
  - eexists. split; [eapply alarm_decode_failure; eassumption | reflexivity].
Qed.

End Handlers.

(** [undecodable_event_gives_500] on a message that is no JSON text. *)
Lemma undecodable_event_gives_500_witness :
  exists e log,
    @Pipeline.handler Sample.lib
      (Sample.world_with (Some Sample.url) (Ok Sample.ok_reply))
      (Sample.sns_event (PStr (lit "{"))) []
    = (Ok {| statusCode := 500;
             body := @json_dumps Sample.lib (PStr (lit "Error: " ++ Sample.describe e)) |},
       log) /\
    posts log = [].
Proof.
  destruct (@undecodable_event_gives_500 Sample.lib
              (Sample.world_with (Some Sample.url) (Ok Sample.ok_reply))
              (Sample.sns_event (PStr (lit "{"))) Sample.url eq_refl)
    as (e & _ & (log & Hrun & Hposts) & _).
  - discriminate.
  - eapply (@malformed_message Sample.lib); reflexivity.
  - exists e, log. split; [exact Hrun | exact Hposts].
Defined.

Section HandlerResponses.
Context `{PyLib}.

(** C4. When SLACK_WEBHOOK_URL is not set, both handlers return status 400
    with the body "Slack webhook URL not configured" (JSON-encoded) and
    log one line; the result is the same for every event, decodable or
    not, and for every JSON parser, so the event is not looked at. *)
Theorem unset_webhook_url_gives_400 (w : world) (event : pyval) :
  environ_get w "SLACK_WEBHOOK_URL" = None ->
  Pipeline.handler w event [] = (Ok not_configured, [not_configured_line]) /\
  Alarm.handler w event [] = (Ok not_configured, [not_configured_line]) /\
  (forall (other_lib : PyLib) (other_event : pyval),
     @Pipeline.handler other_lib w other_event [] = Pipeline.handler w event [] /\
     @Alarm.handler other_lib w other_event [] = Alarm.handler w event []).
Proof.
  intros Hunset. repeat split.
  - apply pipeline_unconfigured. now left.
  - apply alarm_unconfigured. now left.
  - rewrite !pipeline_unconfigured by now left. reflexivity.
  - rewrite !alarm_unconfigured by now left. reflexivity.
Qed.

(** C10. A SLACK_WEBHOOK_URL that is set to the empty string is handled
    like an unset one: both handlers return the 400 response, and their
    log holds no HTTP request. *)
Theorem empty_webhook_url_gives_400 (w : world) (event : pyval) :
  environ_get w "SLACK_WEBHOOK_URL" = Some [] ->
  (Pipeline.handler w event [] = (Ok not_configured, [not_configured_line]) /\
   Alarm.handler w event [] = (Ok not_configured, [not_configured_line])) /\
  statusCode not_configured = 400%Z /\
  posts [not_configured_line] = [] /\
  (forall unset : world,
     environ_get unset "SLACK_WEBHOOK_URL" = None ->
     Pipeline.handler unset event [] = Pipeline.handler w event [] /\
     Alarm.handler unset event [] = Alarm.handler w event []).
Proof.
  intros Hempty. repeat split.
  - apply pipeline_unconfigured. now right.
  - apply alarm_unconfigured. now right.
  - intros. rewrite !pipeline_unconfigured by auto. reflexivity.
  - intros. rewrite !alarm_unconfigured by auto. reflexivity.
Qed.

(** C7. Whatever the environment, the event, the parser and the webhook
    do (answer or raise), each handler returns a response: an integer
    status code and a body that is the JSON encoding of a string.  No run
    ends in [Raise]. *)
Theorem handlers_always_return (w : world) (event : pyval) :
  (exists code text log,
     Pipeline.handler w event []
     = (Ok {| statusCode := code; body := json_dumps (PStr text) |}, log)) /\
  (exists code text log,
     Alarm.handler w event []
     = (Ok {| statusCode := code; body := json_dumps (PStr text) |}, log)).
Proof.
  split; open_handler;
    destruct (environ_get w "SLACK_WEBHOOK_URL") as [[|c url]|];
    run_handler ltac:(settle_lines);
    eexists; eexists; eexists; reflexivity.
Qed.


End HandlerResponses.

(** [unset_webhook_url_gives_400] on an event that could not be decoded. *)
Lemma unset_webhook_url_gives_400_witness :
  @Pipeline.handler Sample.lib (Sample.world_with None (Ok Sample.ok_reply))
    (PList []) []
  = (Ok {| statusCode := 400; body := quoted (lit "Slack webhook URL not configured") |},
     [Print (lit "ERROR: SLACK_WEBHOOK_URL environment variable not set")]).
Proof.
  apply (proj1 (@unset_webhook_url_gives_400 Sample.lib
                  (Sample.world_with None (Ok Sample.ok_reply)) (PList []) eq_refl)).
Defined.

(** [empty_webhook_url_gives_400] on a well-formed alarm event. *)
Lemma empty_webhook_url_gives_400_witness :
  @Alarm.handler Sample.lib (Sample.world_with (Some []) (Ok Sample.ok_reply))
    (Sample.sns_event (PStr (lit "{}"))) []
  = (Ok {| statusCode := 400; body := quoted (lit "Slack webhook URL not configured") |},
     [Print (lit "ERROR: SLACK_WEBHOOK_URL environment variable not set")]).
Proof.
  apply (proj2 (proj1 (@empty_webhook_url_gives_400 Sample.lib
                         (Sample.world_with (Some []) (Ok Sample.ok_reply))
                         (Sample.sns_event (PStr (lit "{}"))) eq_refl))).
Defined.



(** * More on the pipeline message: what a built message shows *)

Lemma dict_get_absent {V} (key : pystr) (d : list (pystr * V)) :
  ~ In key (map fst d) -> dict_get key d = None.
Proof.
  induction d as [|[k v] rest IH]; simpl; [reflexivity|].
  intros Hout. destruct (str_eqb key k) eqn:E.
  - apply str_eqb_eq in E. subst. tauto.
  - apply IH. tauto.
Qed.

Lemma dict_get_In {V} (key : pystr) (v : V) (d : list (pystr * V)) :
  dict_get key d = Some v -> In (key, v) d.
Proof.
  induction d as [|[k v0] rest IH]; simpl; [discriminate|].
  destruct (str_eqb key k) eqn:E.
  - apply str_eqb_eq in E. subst. intros Ev. left. congruence.
  - intros Hrest. right. now apply IH.
Qed.

Section PipelineShape.
Context `{PyLib}.

Lemma extract_dict (sns_message : pyval) (d : Pipeline.details) :
  Pipeline.extract sns_message = Ok d ->
  exists m, sns_message = PDict m /\
    d = {| Pipeline.event_type := get_or m "event_type" (PStr (lit "unknown"));
           Pipeline.status := get_or m "status" (PStr (lit "unknown"));
           Pipeline.branch := get_or m "branch" (PStr (lit "unknown"));
           Pipeline.commit_sha := get_or m "commit_sha" (PStr (lit "unknown"));
           Pipeline.commit_message := get_or m "commit_message" (PStr (lit "No commit message"));
           Pipeline.author := get_or m "author" (PStr (lit "Unknown"));
           Pipeline.workflow_url := get_or m "workflow_url" (PStr (lit ""));
           Pipeline.deployment_version := get_or m "deployment_version" (PStr (lit "")) |}.
Proof.
  destruct sns_message; try discriminate.
  intros E. apply Ok_inj in E. eauto.
Qed.

Lemma color_emoji_Ok (status : pyval) (color emoji : pystr) :
  Pipeline.color_emoji status = Ok (color, emoji) ->
  exists s, status = PStr s /\
    (color, emoji) = Pipeline.color_emoji_of_lowered (str_lower s).
Proof.
  destruct status; try discriminate.
  intros E. apply Ok_inj in E. eauto.
Qed.

Lemma fields_inv (environment : pystr) (d : Pipeline.details) (fields : list pyval) :
  Pipeline.fields environment d = Ok fields ->
  exists status_upper sha value,
    py_upper (Pipeline.status d) = Ok status_upper /\
    slice_to 8 (Pipeline.commit_sha d) = Ok sha /\
    Pipeline.commit_message_value (Pipeline.commit_message d) = Ok value /\
    fields =
      [ field "Environment" (PStr (str_upper environment)) true;
        field "Status" (PStr status_upper) true;
        field "Branch" (Pipeline.branch d) true;
        field "Commit" (PStr (py_str sha)) true;
        field "Author" (Pipeline.author d) true ]
      ++ (if truthy (Pipeline.deployment_version d)
          then [field "Version" (Pipeline.deployment_version d) true]
          else [])
      ++ [field "Commit Message" value false].
Proof.
  unfold Pipeline.fields. intros E.
  apply rbind_Ok in E as (status_upper & Hu & E).
  apply rbind_Ok in E as (sha & Hs & E).
  apply rbind_Ok in E as (value & Hv & E).
  apply Ok_inj in E. subst fields.
  exists status_upper, sha, value. repeat split; try assumption.
  destruct (truthy (Pipeline.deployment_version d)); reflexivity.
Qed.

(** The fields of a built message are those of lines 69-110. *)
Lemma built_fields (project_name environment : pystr) (ts : Z) (sns_message : pyval)
    (d : Pipeline.details) (message : pyval) :
  Pipeline.build project_name environment ts sns_message = Ok (d, message) ->
  exists fields,
    Pipeline.fields environment d = Ok fields /\
    fields_of message = fields /\
    forall name, displayed name message = field_value (lit name) fields.
Proof.
  intros Hbuild.
  apply build_inv in Hbuild as (color & emoji & title & fields & _ & _ & _ & Hf & ->).
  exists fields. split; [exact Hf|]. split.
  - unfold fields_of. rewrite attachment0_slack_message, with_actions_attachment.
    reflexivity.
  - intros name. apply displayed_fields.
Qed.

(** X1. In a built pipeline message the Commit field shows the first eight
    characters of a str commit SHA, and a SHA of at most eight characters
    as it is. *)
Theorem commit_sha_display (project_name environment : pystr) (ts : Z)
    (sns_message : pyval) (d : Pipeline.details) (message : pyval) (sha : pystr) :
  Pipeline.build project_name environment ts sns_message = Ok (d, message) ->
  Pipeline.commit_sha d = PStr sha ->
  displayed "Commit" message = Some (PStr (firstn 8 sha)) /\
  (List.length sha <= 8 -> displayed "Commit" message = Some (PStr sha)) /\
  (8 <= List.length sha ->
     exists shown, displayed "Commit" message = Some (PStr shown) /\
                   List.length shown = 8).
Proof.
  intros Hbuild Hsha.
  apply built_fields in Hbuild as (fields & Hf & _ & Hshown).
  apply fields_inv in Hf as (su & cut & value & _ & Hcut & _ & ->).
  rewrite Hsha in Hcut.
  change (slice_to 8 (PStr sha)) with (Ok (PStr (firstn 8 sha))) in Hcut.
  apply Ok_inj in Hcut. subst cut.
  assert (displayed "Commit" message = Some (PStr (firstn 8 sha))) as Hcommit.
  { rewrite Hshown.
    destruct (truthy (Pipeline.deployment_version d)); reflexivity. }
  split; [exact Hcommit|]. split.
  - intros Hshort. rewrite Hcommit. now rewrite firstn_all2 by lia.
  - intros Hlong. exists (firstn 8 sha). split; [exact Hcommit|].
    rewrite length_firstn. lia.
Qed.

(** X2. A built pipeline message has a Version field exactly when
    [deployment_version] is truthy; it then shows that value, and the
    message has seven fields instead of six. *)
Theorem version_field_iff_truthy (project_name environment : pystr) (ts : Z)
    (sns_message : pyval) (d : Pipeline.details) (message : pyval) :
  Pipeline.build project_name environment ts sns_message = Ok (d, message) ->
  (truthy (Pipeline.deployment_version d) = true ->
     displayed "Version" message = Some (Pipeline.deployment_version d) /\
     List.length (fields_of message) = 7) /\
  (truthy (Pipeline.deployment_version d) = false ->
     displayed "Version" message = None /\
     List.length (fields_of message) = 6).
Proof.
  intros Hbuild.
  apply built_fields in Hbuild as (fields & Hf & Hfs & Hshown).
  apply fields_inv in Hf as (su & cut & value & _ & _ & _ & ->).
  rewrite Hfs, Hshown.
  split; intros ->; split; reflexivity.
Qed.

(** X3. The fields of a built pipeline message come in a fixed order:
    Environment, Status, Branch, Commit, Author, then Version when there is
    one, and Commit Message last; all are short except Commit Message. *)
Theorem pipeline_field_order (project_name environment : pystr) (ts : Z)
    (sns_message : pyval) (d : Pipeline.details) (message : pyval) :
  Pipeline.build project_name environment ts sns_message = Ok (d, message) ->
  let version := if truthy (Pipeline.deployment_version d) then ["Version"%string] else [] in
  map (field_entry "title") (fields_of message)
  = map (fun t => Some (PStr (lit t)))
        (["Environment"; "Status"; "Branch"; "Commit"; "Author"]%string
           ++ version ++ ["Commit Message"%string]) /\
  map (field_entry "short") (fields_of message)
  = map (fun _ => Some (PBool true))
        (["Environment"; "Status"; "Branch"; "Commit"; "Author"]%string ++ version)
      ++ [Some (PBool false)].
Proof.
  intros Hbuild.
  apply built_fields in Hbuild as (fields & Hf & Hfs & _).
  apply fields_inv in Hf as (su & cut & value & _ & _ & _ & ->).
  cbv zeta. rewrite Hfs.
  destruct (truthy (Pipeline.deployment_version d)); split; reflexivity.
Qed.

(** X4. Branch and Author are shown as the SNS message gives them, an
    empty string included; the defaults "unknown" and "Unknown" appear only
    when the key is missing. *)
Theorem provided_values_shown_verbatim (project_name environment : pystr) (ts : Z)
    (m : list (pystr * pyval)) (d : Pipeline.details) (message : pyval) :
  Pipeline.build project_name environment ts (PDict m) = Ok (d, message) ->
  (forall v, dict_get (lit "branch") m = Some v -> displayed "Branch" message = Some v) /\
  (dict_get (lit "branch") m = None ->
     displayed "Branch" message = Some (PStr (lit "unknown"))) /\
  (forall v, dict_get (lit "author") m = Some v -> displayed "Author" message = Some v) /\
  (dict_get (lit "author") m = None ->
     displayed "Author" message = Some (PStr (lit "Unknown"))).
Proof.
  intros Hbuild.
  pose proof Hbuild as Hinv.
  apply build_inv in Hinv as (_ & _ & _ & _ & Hd & _).
  apply extract_dict in Hd as (m' & Em & Hd).
  assert (m' = m) as -> by congruence.
  apply built_fields in Hbuild as (fields & Hf & _ & Hshown).
  apply fields_inv in Hf as (su & cut & value & _ & _ & _ & ->).
  rewrite !Hshown.
  assert (field_value (lit "Branch")
            ([field "Environment" (PStr (str_upper environment)) true;
              field "Status" (PStr su) true;
              field "Branch" (Pipeline.branch d) true;
              field "Commit" (PStr (py_str cut)) true;
              field "Author" (Pipeline.author d) true]
             ++ (if truthy (Pipeline.deployment_version d)
                 then [field "Version" (Pipeline.deployment_version d) true]
                 else [])
             ++ [field "Commit Message" value false])
          = Some (Pipeline.branch d)) as -> by reflexivity.
  assert (field_value (lit "Author")
            ([field "Environment" (PStr (str_upper environment)) true;
              field "Status" (PStr su) true;
              field "Branch" (Pipeline.branch d) true;
              field "Commit" (PStr (py_str cut)) true;
              field "Author" (Pipeline.author d) true]
             ++ (if truthy (Pipeline.deployment_version d)
                 then [field "Version" (Pipeline.deployment_version d) true]
                 else [])
             ++ [field "Commit Message" value false])
          = Some (Pipeline.author d)) as -> by reflexivity.
  rewrite Hd. cbn [Pipeline.branch Pipeline.author]. unfold get_or.
  repeat split.
  - intros v ->. reflexivity.
  - intros ->. reflexivity.
  - intros v ->. reflexivity.
  - intros ->. reflexivity.
Qed.

End PipelineShape.

Section PipelinePresentation.
Context `{PyLib}.

Lemma title_map_label (emoji key title : pystr) :
  In (key, title) (Pipeline.title_map emoji) ->
  exists label, title = emoji ++ lit " " ++ label.
Proof.
  unfold Pipeline.title_map. cbn [In]. intros Hin.
  repeat (destruct Hin as [Hin|Hin]); try contradiction;
    apply pair_equal_spec in Hin as [_ <-];
    match goal with |- exists _, _ ++ ?t = _ => exists (tl t) end; reflexivity.
Qed.

Lemma title_Ok (emoji : pystr) (event_type : pyval) (title : pystr) :
  Pipeline.title emoji event_type = Ok title ->
  hashable event_type = true /\
  exists label, title = emoji ++ lit " " ++ label.
Proof.
  unfold Pipeline.title, table_get.
  destruct event_type; try discriminate; intros E; apply Ok_inj in E;
    (split; [reflexivity|]);
    try (subst title; eexists (lit "Pipeline Event: " ++ _); reflexivity).
  destruct (dict_get s (Pipeline.title_map emoji)) as [t|] eqn:Hget.
  - subst t. apply dict_get_In in Hget. eapply title_map_label, Hget.
  - subst title. eexists (lit "Pipeline Event: " ++ _). reflexivity.
Qed.

(** X5. In a built pipeline message [title_link] is the workflow URL when
    that is truthy and None otherwise, and the payload carries it so; it is
    never the empty string. *)
Theorem title_link_value (project_name environment : pystr) (ts : Z)
    (sns_message : pyval) (d : Pipeline.details) (message : pyval) :
  Pipeline.build project_name environment ts sns_message = Ok (d, message) ->
  exists att link,
    attachment0 message = Some att /\
    dict_get (lit "title_link") att = Some link /\
    link = (if truthy (Pipeline.workflow_url d) then Pipeline.workflow_url d else PNone) /\
    link <> PStr [] /\
    occurs_in (json_pair "title_link" link) (json_dumps message).
Proof.
  intros Hbuild.
  apply build_inv in Hbuild as (color & emoji & title & fields & _ & _ & _ & _ & ->).
  eexists. eexists. split; [apply attachment0_slack_message|].
  rewrite with_actions_attachment.
  split; [reflexivity|]. split; [reflexivity|]. split.
  - destruct (Pipeline.workflow_url d) as [| | | |s| |]; simpl; try discriminate;
      try (destruct b; discriminate);
      try (destruct (negb _); discriminate);
      try (destruct f; discriminate);
      try (destruct items; discriminate);
      try (destruct entries; discriminate).
    destruct s; simpl; discriminate.
  - unfold Pipeline.slack_message.
    eapply occurs_trans; [|apply (dumps_dict_value "attachments")].
    2: { right. right. left. reflexivity. }
    eapply occurs_trans; [|apply dumps_list_item; left; reflexivity].
    apply dumps_dict_member. right. right. left. reflexivity.
Qed.

(** X6. In a built pipeline message the status is a str, the color is the
    one the classifier gives for it, and the title is the classifier's
    emoji, a space and a label: the emoji follows the status, not the event
    type. *)
Theorem presentation_follows_status (project_name environment : pystr) (ts : Z)
    (sns_message : pyval) (d : Pipeline.details) (message : pyval) :
  Pipeline.build project_name environment ts sns_message = Ok (d, message) ->
  exists s att label,
    Pipeline.status d = PStr s /\
    attachment0 message = Some att /\
    dict_get (lit "color") att
      = Some (PStr (fst (Pipeline.color_emoji_of_lowered (str_lower s)))) /\
    dict_get (lit "title") att
      = Some (PStr (snd (Pipeline.color_emoji_of_lowered (str_lower s))
                      ++ lit " " ++ label)).
Proof.
  intros Hbuild.
  apply build_inv in Hbuild as (color & emoji & title & fields & _ & Hc & Ht & _ & ->).
  apply color_emoji_Ok in Hc as (s & Hs & Hce).
  apply title_Ok in Ht as (_ & label & ->).
  exists s. eexists. exists label.
  split; [exact Hs|]. split; [apply attachment0_slack_message|].
  rewrite with_actions_attachment, <- Hce. split; reflexivity.
Qed.

(** X7. For an event type that is a str outside the twelve keys of
    [title_map], the title of a built message is the emoji followed by
    " Pipeline Event: " and the event type as given. *)
Theorem unknown_event_type_title (project_name environment : pystr) (ts : Z)
    (sns_message : pyval) (d : Pipeline.details) (message : pyval) (kind : pystr) :
  Pipeline.build project_name environment ts sns_message = Ok (d, message) ->
  Pipeline.event_type d = PStr kind ->
  ~ In kind known_event_types ->
  exists s att,
    Pipeline.status d = PStr s /\
    attachment0 message = Some att /\
    dict_get (lit "title") att
      = Some (PStr (snd (Pipeline.color_emoji_of_lowered (str_lower s))
                      ++ lit " Pipeline Event: " ++ kind)).
Proof.
  intros Hbuild Hkind Hunknown.
  apply build_inv in Hbuild as (color & emoji & title & fields & _ & Hc & Ht & _ & ->).
  apply color_emoji_Ok in Hc as (s & Hs & Hce).
  rewrite Hkind in Ht. unfold Pipeline.title, table_get in Ht.
  rewrite (dict_get_absent kind (Pipeline.title_map emoji)) in Ht by exact Hunknown.
  apply Ok_inj in Ht. subst title.
  exists s. eexists. split; [exact Hs|]. split; [apply attachment0_slack_message|].
  rewrite with_actions_attachment, <- Hce. reflexivity.
Qed.

(** X8. The pipeline message is built exactly when the decoded SNS message
    is a dict whose status and commit message are strs, whose event type
    can be hashed and whose commit SHA can be sliced; in every other case
    building raises. *)
Theorem build_succeeds_iff (project_name environment : pystr) (ts : Z)
    (sns_message : pyval) :
  (exists d message,
     Pipeline.build project_name environment ts sns_message = Ok (d, message))
  <->
  (exists m, sns_message = PDict m /\
     is_str (get_or m "status" (PStr (lit "unknown"))) = true /\
     hashable (get_or m "event_type" (PStr (lit "unknown"))) = true /\
     sliceable (get_or m "commit_sha" (PStr (lit "unknown"))) = true /\
     is_str (get_or m "commit_message" (PStr (lit "No commit message"))) = true).
Proof.
  split.
  - intros (d & message & Hbuild).
    apply build_inv in Hbuild as (color & emoji & title & fields & Hd & Hc & Ht & Hf & _).
    apply extract_dict in Hd as (m & -> & Hd). exists m. split; [reflexivity|].
    apply color_emoji_Ok in Hc as (s & Hs & _).
    apply title_Ok in Ht as (Hhash & _).
    apply fields_inv in Hf as (su & cut & value & _ & Hcut & Hvalue & _).
    rewrite Hd in Hs, Hhash, Hcut, Hvalue.
    cbn [Pipeline.status Pipeline.event_type Pipeline.commit_sha
           Pipeline.commit_message] in Hs, Hhash, Hcut, Hvalue.
    rewrite Hs. repeat split.
    + exact Hhash.
    + destruct (get_or m "commit_sha" (PStr (lit "unknown")));
        try discriminate Hcut; reflexivity.
    + destruct (get_or m "commit_message" (PStr (lit "No commit message")));
        try discriminate Hvalue; reflexivity.
  - intros (m & -> & Hs & Hh & Hsl & Hcm).
    unfold Pipeline.build, Pipeline.extract, py_get. cbn [rbind].
    fold (get_or m "status" (PStr (lit "unknown"))).
    fold (get_or m "event_type" (PStr (lit "unknown"))).
    fold (get_or m "commit_sha" (PStr (lit "unknown"))).
    fold (get_or m "commit_message" (PStr (lit "No commit message"))).
    destruct (get_or m "status" (PStr (lit "unknown"))) as [| | | |s| |];
      try discriminate Hs.
    destruct (get_or m "commit_message" (PStr (lit "No commit message")))
      as [| | | |cm| |]; try discriminate Hcm.
    unfold Pipeline.color_emoji, py_lower, Pipeline.fields, py_upper,
      Pipeline.commit_message_value. cbn [rbind Pipeline.status Pipeline.event_type
      Pipeline.commit_sha Pipeline.commit_message slice_to py_len add_str].
    unfold Pipeline.title, table_get.
    destruct (get_or m "event_type" (PStr (lit "unknown"))); try discriminate Hh;
      destruct (get_or m "commit_sha" (PStr (lit "unknown"))); try discriminate Hsl;
      cbn [rbind slice_to]; eexists; eexists; reflexivity.
Qed.

End PipelinePresentation.

(** * More on the alarm message *)

Section AlarmShape.
Context `{PyLib}.

Lemma alarm_build_inv (project_name environment now_iso : pystr) (ts : Z)
    (sns_message : pyval) (d : Alarm.details) (message : pyval) :
  Alarm.build project_name environment now_iso ts sns_message = Ok (d, message) ->
  exists m color emoji,
    sns_message = PDict m /\
    d = {| Alarm.alarm_name := get_or m "AlarmName" (PStr (lit "Unknown Alarm"));
           Alarm.alarm_description := get_or m "AlarmDescription" (PStr (lit "No description"));
           Alarm.new_state := get_or m "NewStateValue" (PStr (lit "UNKNOWN"));
           Alarm.old_state := get_or m "OldStateValue" (PStr (lit "UNKNOWN"));
           Alarm.reason := get_or m "NewStateReason" (PStr (lit "No reason provided"));
           Alarm.timestamp := get_or m "StateChangeTime" (PStr now_iso) |} /\
    table_get Alarm.color_map (Alarm.new_state d) gray = Ok color /\
    table_get Alarm.emoji_map (Alarm.new_state d) question_mark = Ok emoji /\
    message = Alarm.slack_message project_name environment color emoji d ts.
Proof.
  unfold Alarm.build. intros E.
  apply rbind_Ok in E as (d' & Hd & E).
  apply rbind_Ok in E as (color & Hc & E).
  apply rbind_Ok in E as (emoji & He & E).
  apply Ok_inj in E. apply pair_equal_spec in E as [-> <-].
  destruct sns_message as [| | | | | |m]; try discriminate Hd.
  apply Ok_inj in Hd. exists m, color, emoji. repeat split; auto.
Qed.

Lemma table_get_Ok (table : list (pystr * pystr)) (key : pyval) (default v : pystr) :
  table_get table key default = Ok v -> hashable key = true.
Proof. destruct key; simpl; try discriminate; reflexivity. Qed.

(** X9. The alarm message is built exactly when the decoded SNS message is
    a dict whose new state can be hashed; a new state that is a list or a
    dict, or a message that is no dict, makes building raise. *)
Theorem alarm_build_succeeds_iff (project_name environment now_iso : pystr) (ts : Z)
    (sns_message : pyval) :
  (exists d message,
     Alarm.build project_name environment now_iso ts sns_message = Ok (d, message))
  <->
  (exists m, sns_message = PDict m /\
     hashable (get_or m "NewStateValue" (PStr (lit "UNKNOWN"))) = true).
Proof.
  split.
  - intros (d & message & Hbuild).
    apply alarm_build_inv in Hbuild as (m & color & emoji & -> & Hd & Hc & _ & _).
    exists m. split; [reflexivity|].
    apply table_get_Ok in Hc. rewrite Hd in Hc. exact Hc.
  - intros (m & -> & Hh).
    unfold Alarm.build, Alarm.extract, py_get. cbn [rbind Alarm.new_state].
    fold (get_or m "NewStateValue" (PStr (lit "UNKNOWN"))).
    unfold table_get.
    destruct (get_or m "NewStateValue" (PStr (lit "UNKNOWN"))); try discriminate Hh;
      cbn [rbind]; eexists; eexists; reflexivity.
Qed.

(** X10. A built alarm message has the five fields Environment, State
    Change, Description, Reason and Timestamp in this order, of which
    Description and Reason are full width.  Description, Reason and
    Timestamp show what the SNS message gives, or "No description", "No
    reason provided" and the current time in ISO format when the key is
    missing. *)
Theorem alarm_fields_and_defaults (project_name environment now_iso : pystr) (ts : Z)
    (m : list (pystr * pyval)) (d : Alarm.details) (message : pyval) :
  Alarm.build project_name environment now_iso ts (PDict m) = Ok (d, message) ->
  map (field_entry "title") (fields_of message)
  = map (fun t => Some (PStr (lit t)))
        ["Environment"; "State Change"; "Description"; "Reason"; "Timestamp"]%string /\
  map (field_entry "short") (fields_of message)
  = map (fun b => Some (PBool b)) [true; true; false; false; true] /\
  displayed "Description" message
  = Some (get_or m "AlarmDescription" (PStr (lit "No description"))) /\
  displayed "Reason" message
  = Some (get_or m "NewStateReason" (PStr (lit "No reason provided"))) /\
  displayed "Timestamp" message
  = Some (get_or m "StateChangeTime" (PStr now_iso)).
Proof.
  intros Hbuild.
  apply alarm_build_inv in Hbuild as (m' & color & emoji & Em & Hd & _ & _ & ->).
  assert (m' = m) as -> by congruence.
  rewrite Hd. repeat split; reflexivity.
Qed.

(** X11. A new state that is hashable but none of the strs ALARM, OK and
    INSUFFICIENT_DATA (a number or null, say) gives a gray attachment whose
    title starts with the question mark; the alarm name defaults to
    "Unknown Alarm".  The attachment has neither a title link nor
    actions. *)
Theorem alarm_unlisted_state (project_name environment now_iso : pystr) (ts : Z)
    (m : list (pystr * pyval)) (d : Alarm.details) (message : pyval) :
  Alarm.build project_name environment now_iso ts (PDict m) = Ok (d, message) ->
  Alarm.new_state d <> PStr (lit "ALARM") ->
  Alarm.new_state d <> PStr (lit "OK") ->
  Alarm.new_state d <> PStr (lit "INSUFFICIENT_DATA") ->
  exists att,
    attachment0 message = Some att /\
    dict_get (lit "color") att = Some (PStr gray) /\
    dict_get (lit "title") att
      = Some (PStr (question_mark ++ lit " CloudWatch Alarm: "
                      ++ py_str (get_or m "AlarmName" (PStr (lit "Unknown Alarm"))))) /\
    dict_get (lit "title_link") att = None /\
    dict_get (lit "actions") att = None.
Proof.
  intros Hbuild Ha Ho Hi.
  apply alarm_build_inv in Hbuild as (m' & color & emoji & Em & Hd & Hc & He & ->).
  assert (m' = m) as -> by congruence.
  assert (color = gray /\ emoji = question_mark) as [-> ->].
  { destruct (Alarm.new_state d) as [| | | |s| |];
      try discriminate Hc;
      try (apply Ok_inj in Hc; apply Ok_inj in He; split; congruence).
    rewrite table_get_other in Hc, He.
    - apply Ok_inj in Hc. apply Ok_inj in He. split; congruence.
    - unfold Alarm.emoji_map. cbn [In].
      intros k v [E|[E|[E|[]]]]; apply pair_equal_spec in E as [<- _]; congruence.
    - unfold Alarm.color_map. cbn [In].
      intros k v [E|[E|[E|[]]]]; apply pair_equal_spec in E as [<- _]; congruence. }
  eexists. split; [reflexivity|].
  rewrite Hd. repeat split; reflexivity.
Qed.

End AlarmShape.

(** * More on the handlers: decoding, failures and the webhook call *)

Section HandlerRuns.
Context `{PyLib}.

Lemma getitem_str_Ok (v : pyval) (key : pystr) (x : pyval) :
  getitem_str v key = Ok x -> exists d, v = PDict d /\ dict_get key d = Some x.
Proof.
  destruct v as [| | | | | |d]; try discriminate. simpl.
  destruct (dict_get key d) as [y|] eqn:Hget; [|discriminate].
  intros E. apply Ok_inj in E. subst. eauto.
Qed.

(** X12. The message text is found exactly when the event is a dict whose
    Records entry is a list that starts with a dict, whose Sns entry is a
    dict with a Message entry; every other shape makes line 25 raise. *)
Theorem sns_message_text_Ok_iff (event text : pyval) :
  sns_message_text event = Ok text <->
  exists d record others sns,
    event = PDict d /\
    dict_get (lit "Records") d = Some (PList (PDict record :: others)) /\
    dict_get (lit "Sns") record = Some (PDict sns) /\
    dict_get (lit "Message") sns = Some text.
Proof.
  unfold sns_message_text. split.
  - intros E.
    apply rbind_Ok in E as (records & Hr & E).
    apply rbind_Ok in E as (record & H0 & E).
    apply rbind_Ok in E as (sns & Hs & Hm).
    apply getitem_str_Ok in Hr as (d & -> & Hr).
    apply getitem_str_Ok in Hs as (r & -> & Hs).
    apply getitem_str_Ok in Hm as (s & -> & Hm).
    destruct records as [| | | |[|c cs]|[|x others]|]; try discriminate H0.
    apply Ok_inj in H0. subst x.
    exists d, r, others, s. auto.
  - intros (d & record & others & sns & -> & Hr & Hs & Hm).
    unfold getitem_str at 1. rewrite Hr. cbn [rbind getitem_0].
    unfold getitem_str at 1. rewrite Hs. cbn [rbind].
    unfold getitem_str. rewrite Hm. reflexivity.
Qed.

Lemma handlers_read_text_only (w : world) (event other : pyval) :
  sns_message_text event = sns_message_text other ->
  Pipeline.handler w event [] = Pipeline.handler w other [] /\
  Alarm.handler w event [] = Alarm.handler w other [].
Proof.
  intros Hsame. split; open_handler;
    destruct (environ_get w "SLACK_WEBHOOK_URL") as [[|c url]|]; try reflexivity;
    rewrite Hsame; reflexivity.
Qed.

(** X13. Only the first record of an event is read: both handlers behave
    on an event as on the event that holds its first record alone, whatever
    the other records and the other keys of the event are. *)
Theorem only_first_record_is_read (w : world) (d : list (pystr * pyval))
    (first : pyval) (others : list pyval) :
  dict_get (lit "Records") d = Some (PList (first :: others)) ->
  Pipeline.handler w (PDict d) [] = Pipeline.handler w (sns_records [first]) [] /\
  Alarm.handler w (PDict d) [] = Alarm.handler w (sns_records [first]) [].
Proof.
  intros Hr. apply handlers_read_text_only.
  unfold sns_message_text, sns_records.
  unfold getitem_str at 1 4. rewrite Hr. reflexivity.
Qed.

(** X14. When the event decodes but building the message raises, the
    handler returns status 500 with "Error: " and the description of that
    exception, logs one line and posts nothing. *)
Theorem build_failure_gives_500 (w : world) (event : pyval) (url : pystr)
    (sns_message : pyval) (e : exn) :
  environ_get w "SLACK_WEBHOOK_URL" = Some url ->
  url <> [] ->
  decode event = Ok sns_message ->
  (Pipeline.build (environ_get_default w "PROJECT_NAME" "NovaCore Vectra")
     (environ_get_default w "ENVIRONMENT" "unknown") (utcnow_timestamp w) sns_message
   = Raise e ->
   Pipeline.handler w event []
   = (Ok (failure e),
      [Print (lit "Error processing pipeline event notification: " ++ exc_str e)])) /\
  (Alarm.build (environ_get_default w "PROJECT_NAME" "NovaCore Vectra")
     (environ_get_default w "ENVIRONMENT" "unknown") (utcnow_isoformat w)
     (utcnow_timestamp w) sns_message
   = Raise e ->
   Alarm.handler w event []
   = (Ok (failure e),
      [Print (lit "Error processing CloudWatch alarm notification: " ++ exc_str e)])).
Proof.
  intros Hurl Hne Hdecode.
  destruct url as [|c url]; [contradiction|].
  apply decode_Ok in Hdecode as (text & Htext & Hloads).
  split; intros Hbuild; open_handler; rewrite Hurl, Htext; cbv beta iota;
    rewrite Hloads; cbv beta iota; rewrite Hbuild; cbv beta iota;
    settle_lines; reflexivity.
Qed.

(** X15. When the message is built and serialized but the call of
    [http.request] raises, the handler returns status 500 with "Error: "
    and the description of that exception; it has made that one call (with
    the configured URL and the serialized message) and printed one line,
    and it does not call again. *)
Theorem webhook_exception_gives_500 (w : world) (event : pyval) (url : pystr)
    (sns_message : pyval) (e : exn) :
  environ_get w "SLACK_WEBHOOK_URL" = Some url ->
  url <> [] ->
  decode event = Ok sns_message ->
  (forall d message payload,
     Pipeline.build (environ_get_default w "PROJECT_NAME" "NovaCore Vectra")
       (environ_get_default w "ENVIRONMENT" "unknown") (utcnow_timestamp w) sns_message
     = Ok (d, message) ->
     py_json_dumps message = Ok payload ->
     http_request w url payload = Raise e ->
     payload = json_dumps message /\
     Pipeline.handler w event []
     = (Ok (failure e),
        [HttpPost url payload (lit "application/json");
         Print (lit "Error processing pipeline event notification: " ++ exc_str e)])) /\
  (forall d message payload,
     Alarm.build (environ_get_default w "PROJECT_NAME" "NovaCore Vectra")
       (environ_get_default w "ENVIRONMENT" "unknown") (utcnow_isoformat w)
       (utcnow_timestamp w) sns_message
     = Ok (d, message) ->
     py_json_dumps message = Ok payload ->
     http_request w url payload = Raise e ->
     payload = json_dumps message /\
     Alarm.handler w event []
     = (Ok (failure e),
        [HttpPost url payload (lit "application/json");
         Print (lit "Error processing CloudWatch alarm notification: " ++ exc_str e)])).
Proof.
  intros Hurl Hne Hdecode.
  destruct url as [|c url]; [contradiction|].
  apply decode_Ok in Hdecode as (text & Htext & Hloads).
  split; intros d message payload Hbuild Hdumps Hrequest;
    (split; [unfold py_json_dumps in Hdumps;
             destruct (depth message <=? dumps_limit); congruence|]);
    open_handler;
    rewrite Hurl, Htext; cbv beta iota;
    rewrite Hloads; cbv beta iota; rewrite Hbuild; cbv beta iota; cbn [fst snd];
    rewrite Hdumps; cbv beta iota;
    rewrite Hrequest; cbv beta iota; settle_lines; reflexivity.
Qed.

(** X16. A run calls [http.request] at most once.  When it does, the
    webhook URL is configured and not empty, the event was decoded and the
    message built and serialized, and the call is made with that URL, the
    JSON text of the message and the content type application/json. *)
Theorem posts_of_a_run (w : world) (event : pyval) :
  (posts (snd (Pipeline.handler w event [])) = [] \/
   exists url sns_message d message,
     environ_get w "SLACK_WEBHOOK_URL" = Some url /\ url <> [] /\
     decode event = Ok sns_message /\
     Pipeline.build (environ_get_default w "PROJECT_NAME" "NovaCore Vectra")
       (environ_get_default w "ENVIRONMENT" "unknown") (utcnow_timestamp w) sns_message
     = Ok (d, message) /\
     py_json_dumps message = Ok (json_dumps message) /\
     posts (snd (Pipeline.handler w event []))
     = [HttpPost url (json_dumps message) (lit "application/json")]) /\
  (posts (snd (Alarm.handler w event [])) = [] \/
   exists url sns_message d message,
     environ_get w "SLACK_WEBHOOK_URL" = Some url /\ url <> [] /\
     decode event = Ok sns_message /\
     Alarm.build (environ_get_default w "PROJECT_NAME" "NovaCore Vectra")
       (environ_get_default w "ENVIRONMENT" "unknown") (utcnow_isoformat w)
       (utcnow_timestamp w) sns_message
     = Ok (d, message) /\
     py_json_dumps message = Ok (json_dumps message) /\
     posts (snd (Alarm.handler w event []))
     = [HttpPost url (json_dumps message) (lit "application/json")]).
Proof.
  split; open_handler;
    (destruct (environ_get w "SLACK_WEBHOOK_URL") as [[|c url]|] eqn:Hurl;
     run_handler ltac:(settle_lines);
     try (left; reflexivity);
     assert (payload = json_dumps message) as ->
       by (unfold py_json_dumps in Hdumps;
           destruct (depth message <=? dumps_limit); congruence);
     right; exists (c :: url), sns_message, d, message;
     (split; [reflexivity|]); (split; [discriminate|]);
     (split; [unfold decode; rewrite Htext; exact Hloads|]);
     (split; [exact Hbuild|]); (split; [exact Hdumps | reflexivity])).
Qed.

(** X18. When the message is built but [json.dumps] raises on it (a value
    nested deeper than the encoder can go), the handler returns status 500
    with "Error: " and the description of that exception, prints one line
    and never calls the webhook. *)
Theorem serialization_failure_gives_500 (w : world) (event : pyval) (url : pystr)
    (sns_message : pyval) :
  environ_get w "SLACK_WEBHOOK_URL" = Some url ->
  url <> [] ->
  decode event = Ok sns_message ->
  (forall d message,
     Pipeline.build (environ_get_default w "PROJECT_NAME" "NovaCore Vectra")
       (environ_get_default w "ENVIRONMENT" "unknown") (utcnow_timestamp w) sns_message
     = Ok (d, message) ->
     dumps_limit < depth message ->
     Pipeline.handler w event []
     = (Ok (failure RecursionError),
        [Print (lit "Error processing pipeline event notification: "
                  ++ exc_str RecursionError)])) /\
  (forall d message,
     Alarm.build (environ_get_default w "PROJECT_NAME" "NovaCore Vectra")
       (environ_get_default w "ENVIRONMENT" "unknown") (utcnow_isoformat w)
       (utcnow_timestamp w) sns_message
     = Ok (d, message) ->
     dumps_limit < depth message ->
     Alarm.handler w event []
     = (Ok (failure RecursionError),
        [Print (lit "Error processing CloudWatch alarm notification: "
                  ++ exc_str RecursionError)])).
Proof.
  intros Hurl Hne Hdecode.
  destruct url as [|c url]; [contradiction|].
  apply decode_Ok in Hdecode as (text & Htext & Hloads).
  split; intros d message Hbuild Hdeep;
    (assert (py_json_dumps message = Raise RecursionError) as Hdumps
       by (unfold py_json_dumps;
           assert ((depth message <=? dumps_limit) = false) as ->
             by (apply Nat.leb_gt; exact Hdeep);
           reflexivity));
    open_handler;
    rewrite Hurl, Htext; cbv beta iota;
    rewrite Hloads; cbv beta iota; rewrite Hbuild; cbv beta iota; cbn [fst snd];
    rewrite Hdumps; cbv beta iota; settle_lines; reflexivity.
Qed.


End HandlerRuns.

(** * The added facts on concrete inputs *)

(** [commit_sha_display] on the SHA abcdef1234567890. *)
Lemma commit_sha_display_witness :
  exists d message,
    @Pipeline.build Sample.lib (lit "P") (lit "prod") 17
      (PDict [(lit "commit_sha", PStr (lit "abcdef1234567890"))]) = Ok (d, message) /\
    displayed "Commit" message = Some (PStr (lit "abcdef12")).
Proof.
  eexists. eexists. split.
  - vm_compute. reflexivity.
  - apply (proj1 (@commit_sha_display Sample.lib (lit "P") (lit "prod") 17
                    (PDict [(lit "commit_sha", PStr (lit "abcdef1234567890"))])
                    _ _ (lit "abcdef1234567890") eq_refl eq_refl)).
Defined.

(** [version_field_iff_truthy] on a message with a deployment version. *)
Lemma version_field_iff_truthy_witness :
  exists d message,
    @Pipeline.build Sample.lib (lit "P") (lit "prod") 17
      (PDict [(lit "deployment_version", PStr (lit "1.2.3"))]) = Ok (d, message) /\
    displayed "Version" message = Some (PStr (lit "1.2.3")) /\
    List.length (fields_of message) = 7.
Proof.
  eexists. eexists. split.
  - vm_compute. reflexivity.
  - apply (proj1 (@version_field_iff_truthy Sample.lib (lit "P") (lit "prod") 17
                    (PDict [(lit "deployment_version", PStr (lit "1.2.3"))])
                    _ _ eq_refl)).
    reflexivity.
Defined.

(** [pipeline_field_order] on a message without a deployment version. *)
Lemma pipeline_field_order_witness :
  exists d message,
    @Pipeline.build Sample.lib (lit "P") (lit "prod") 17 Sample.failed_deployment
      = Ok (d, message) /\
    map (field_entry "title") (fields_of message)
    = map (fun t => Some (PStr (lit t)))
        ["Environment"; "Status"; "Branch"; "Commit"; "Author"; "Commit Message"]%string.
Proof.
  eexists. eexists. split.
  - vm_compute. reflexivity.
  - apply (proj1 (@pipeline_field_order Sample.lib (lit "P") (lit "prod") 17
                    Sample.failed_deployment _ _ eq_refl)).
Defined.

(** [provided_values_shown_verbatim] on a message with an empty branch. *)
Lemma provided_values_shown_verbatim_witness :
  exists d message,
    @Pipeline.build Sample.lib (lit "P") (lit "prod") 17
      (PDict [(lit "branch", PStr [])]) = Ok (d, message) /\
    displayed "Branch" message = Some (PStr []) /\
    displayed "Author" message = Some (PStr (lit "Unknown")).
Proof.
  eexists. eexists. split.
  - vm_compute. reflexivity.
  - destruct (@provided_values_shown_verbatim Sample.lib (lit "P") (lit "prod") 17
                [(lit "branch", PStr [])] _ _ eq_refl)
      as (Hbranch & _ & _ & Hauthor).
    split; [apply Hbranch | apply Hauthor]; reflexivity.
Defined.

(** [title_link_value] on a message with a workflow URL. *)
Lemma title_link_value_witness :
  exists d message att,
    @Pipeline.build Sample.lib (lit "P") (lit "prod") 17
      (PDict [(lit "workflow_url", PStr Sample.url)]) = Ok (d, message) /\
    attachment0 message = Some att /\
    dict_get (lit "title_link") att = Some (PStr Sample.url).
Proof.
  destruct (@title_link_value Sample.lib (lit "P") (lit "prod") 17
              (PDict [(lit "workflow_url", PStr Sample.url)]) _ _ eq_refl)
    as (att & link & Hatt & Hlink & -> & _).
  eexists. eexists. exists att. split; [reflexivity|]. split; [exact Hatt | exact Hlink].
Defined.

(** [presentation_follows_status] on a failed deployment. *)
Lemma presentation_follows_status_witness :
  exists d message att,
    @Pipeline.build Sample.lib (lit "P") (lit "prod") 17 Sample.failed_deployment
      = Ok (d, message) /\
    attachment0 message = Some att /\
    dict_get (lit "color") att = Some (PStr red).
Proof.
  destruct (@presentation_follows_status Sample.lib (lit "P") (lit "prod") 17
              Sample.failed_deployment _ _ eq_refl)
    as (s & att & label & Hs & Hatt & Hcolor & _).
  apply (f_equal (fun v => match v with PStr x => x | _ => [] end)) in Hs.
  cbn in Hs. subst s.
  eexists. eexists. exists att. split; [reflexivity|]. split; [exact Hatt | exact Hcolor].
Defined.

(** [unknown_event_type_title] on the event type custom_event. *)
Lemma unknown_event_type_title_witness :
  exists d message att,
    @Pipeline.build Sample.lib (lit "P") (lit "prod") 17
      (PDict [(lit "event_type", PStr (lit "custom_event"))]) = Ok (d, message) /\
    attachment0 message = Some att /\
    dict_get (lit "title") att
      = Some (PStr (question_mark ++ lit " Pipeline Event: custom_event")).
Proof.
  destruct (@unknown_event_type_title Sample.lib (lit "P") (lit "prod") 17
              (PDict [(lit "event_type", PStr (lit "custom_event"))]) _ _
              (lit "custom_event") eq_refl eq_refl)
    as (s & att & Hs & Hatt & Htitle).
  - vm_compute. intros Hin.
    repeat (destruct Hin as [Hin|Hin]; [discriminate Hin|]). exact Hin.
  - apply (f_equal (fun v => match v with PStr x => x | _ => [] end)) in Hs.
    cbn in Hs. subst s.
    eexists. eexists. exists att. split; [reflexivity|]. split; [exact Hatt | exact Htitle].
Defined.

(** [alarm_fields_and_defaults] on an alarm without description and time. *)
Lemma alarm_fields_and_defaults_witness :
  exists d message,
    @Alarm.build Sample.lib (lit "P") (lit "prod") (lit "2024-01-01T00:00:00") 17
      Sample.recovered_alarm = Ok (d, message) /\
    displayed "Description" message = Some (PStr (lit "No description")) /\
    displayed "Timestamp" message = Some (PStr (lit "2024-01-01T00:00:00")).
Proof.
  eexists. eexists. split.
  - vm_compute. reflexivity.
  - destruct (@alarm_fields_and_defaults Sample.lib (lit "P") (lit "prod")
                (lit "2024-01-01T00:00:00") 17
                [(lit "AlarmName", PStr (lit "cpu-high"));
                 (lit "NewStateValue", PStr (lit "OK"));
                 (lit "OldStateValue", PStr (lit "ALARM"))] _ _ eq_refl)
      as (_ & _ & Hdescription & _ & Htime).
    split; [exact Hdescription | exact Htime].
Defined.

(** [alarm_unlisted_state] on a new state that is null. *)
Lemma alarm_unlisted_state_witness :
  exists d message att,
    @Alarm.build Sample.lib (lit "P") (lit "prod") (lit "now") 17
      (PDict [(lit "NewStateValue", PNone)]) = Ok (d, message) /\
    attachment0 message = Some att /\
    dict_get (lit "color") att = Some (PStr gray).
Proof.
  destruct (@alarm_unlisted_state Sample.lib (lit "P") (lit "prod") (lit "now") 17
              [(lit "NewStateValue", PNone)] _ _ eq_refl)
    as (att & Hatt & Hcolor & _); try discriminate.
  eexists. eexists. exists att. split; [reflexivity|]. split; [exact Hatt | exact Hcolor].
Defined.

(** [only_first_record_is_read] on an event with two records. *)
Lemma only_first_record_is_read_witness :
  let record text := PDict [(lit "Sns", PDict [(lit "Message", PStr (lit text))])] in
  let w := Sample.world_with (Some Sample.url) (Ok Sample.ok_reply) in
  @Pipeline.handler Sample.lib w
    (PDict [(lit "Type", PStr (lit "batch"));
            (lit "Records", PList [record "{}"%string; record "{"%string])]) []
  = @Pipeline.handler Sample.lib w (sns_records [record "{}"%string]) [].
Proof.
  intros record w.
  apply (proj1 (@only_first_record_is_read Sample.lib w
                  [(lit "Type", PStr (lit "batch"));
                   (lit "Records", PList [record "{}"%string; record "{"%string])]
                  (record "{}"%string) [record "{"%string] eq_refl)).
Defined.

(** [build_failure_gives_500] on a message whose status is a number. *)
Lemma build_failure_gives_500_witness :
  let sns_message := PDict [(lit "status", PInt 5)] in
  let lib := lib_for sns_message in
  let w := Sample.world_with (Some Sample.url) (Ok Sample.ok_reply) in
  @Pipeline.handler lib w
    (Sample.sns_event (PStr (@json_dumps Sample.lib sns_message))) []
  = (Ok (@failure lib (AttributeError (PInt 5) (lit "lower"))),
     [Print (lit "Error processing pipeline event notification: no attribute lower")]).
Proof.
  intros sns_message lib w.
  apply (proj1 (@build_failure_gives_500 lib w
                  (Sample.sns_event (PStr (@json_dumps Sample.lib sns_message)))
                  Sample.url sns_message (AttributeError (PInt 5) (lit "lower"))
                  eq_refl ltac:(discriminate) eq_refl)).
  reflexivity.
Defined.

(** [webhook_exception_gives_500] on a webhook that cannot be reached. *)
Lemma webhook_exception_gives_500_witness :
  exists payload,
    @Alarm.handler Sample.lib
      (Sample.world_with (Some Sample.url)
         (Raise (LibraryError (lit "MaxRetryError") (lit "connection refused"))))
      (Sample.sns_event (PStr (lit "{}"))) []
    = (Ok (@failure Sample.lib
             (LibraryError (lit "MaxRetryError") (lit "connection refused"))),
       [HttpPost Sample.url payload (lit "application/json");
        Print (lit "Error processing CloudWatch alarm notification: "
                 ++ lit "MaxRetryError: connection refused")]).
Proof.
  eexists.
  eapply (proj2 (@webhook_exception_gives_500 Sample.lib
                   (Sample.world_with (Some Sample.url)
                      (Raise (LibraryError (lit "MaxRetryError")
                                (lit "connection refused"))))
                   (Sample.sns_event (PStr (lit "{}"))) Sample.url (PDict [])
                   (LibraryError (lit "MaxRetryError") (lit "connection refused"))
                   eq_refl ltac:(discriminate) eq_refl));
    reflexivity.
Defined.

(** [serialization_failure_gives_500] on an alarm whose description is a
    list nested a thousand deep. *)
Lemma serialization_failure_gives_500_witness :
  @Alarm.handler (lib_for (PDict [(lit "AlarmDescription", nested 1000)]))
    (Sample.world_with (Some Sample.url) (Ok Sample.ok_reply))
    (Sample.sns_event
       (PStr (@json_dumps Sample.lib (PDict [(lit "AlarmDescription", nested 1000)])))) []
  = (Ok (@failure Sample.lib RecursionError),
     [Print (lit "Error processing CloudWatch alarm notification: "
               ++ lit "maximum recursion depth exceeded")]).
Proof.
  eapply (proj2 (@serialization_failure_gives_500
                   (lib_for (PDict [(lit "AlarmDescription", nested 1000)]))
                   (Sample.world_with (Some Sample.url) (Ok Sample.ok_reply))
                   (Sample.sns_event
                      (PStr (@json_dumps Sample.lib
                               (PDict [(lit "AlarmDescription", nested 1000)]))))
                   Sample.url (PDict [(lit "AlarmDescription", nested 1000)])
                   eq_refl ltac:(discriminate) eq_refl)).
  - vm_compute. reflexivity.
  - vm_compute. lia.
Defined.
